(** * Zmanim countdown controller of [clock.js]

    A shallow embedding of the countdown / mode state machine of
    [src/clock.js]: the module-level variables, the display surface reached
    through [getElement] and [updateText], the browser's timer table, the
    in-flight requests of [fetchZmanim], and the functions
    [calculateAlotHashahar], [startCountdown] (with its inner [tick]),
    [handleApiError] and [fetchZmanim].

    The analog clock on the canvas, [updateClock] and the two calendar
    requests write only to their own elements and read none of the
    controller's variables; they are outside this development. *)

From Stdlib Require Import ZArith Lia String Ascii List DecimalString.
From stdpp Require Import gmap strings list fin_maps.

Local Open Scope Z_scope.
Local Open Scope string_scope.

(** ** JavaScript strings and numbers used by the controller

    A string is the sequence of its UTF-8 bytes; the controller only
    measures and pads strings of decimal digits. *)

Module Js.

(** [Number.prototype.toString] on an integer value: decimal digits, with a
    leading minus sign for a negative number. *)
Definition toString (n : Z) : string :=
  NilZero.string_of_int (Z.to_int n).

(** [n] copies of [pad] glued together, cut to [k] characters: the filler
    that [padStart] puts in front. *)
Fixpoint filler (fuel : nat) (k : nat) (pad : string) : string :=
  match fuel with
  | O => EmptyString
  | S fuel' =>
      if (k <=? String.length pad)%nat then String.substring 0 k pad
      else pad ++ filler fuel' (k - String.length pad) pad
  end.

(** [String.prototype.padStart(targetLength, padString)]: a string already
    as long as [targetLength] comes back unchanged, and so does any string
    when [padString] is empty. *)
Definition padStart (targetLength : nat) (padString : string) (s : string) : string :=
  if (targetLength <=? String.length s)%nat then s
  else if (String.length padString =? 0)%nat then s
  else filler targetLength (targetLength - String.length s) padString ++ s.

End Js.

(** A JavaScript number that is either an integer or [NaN]. Every
    comparison with [NaN] is false. *)
Module Num.

Definition t := option Z.

Definition NaN : t := None.

Definition leb (x : t) (y : Z) : bool :=
  match x with Some v => Z.leb v y | None => false end.

Definition gtb (x : t) (y : Z) : bool :=
  match x with Some v => Z.gtb v y | None => false end.

End Num.

(** ** Day.js values

    Day.js is a library the page loads next to [clock.js]. A [Dayjs] object
    wraps an instant in milliseconds, or is invalid (what parsing gives on
    text it cannot read). *)

Module Dayjs.

Inductive t : Type :=
  | Instant (ms : Z)
  | Invalid.

(** [a.diff(now)], in milliseconds; [NaN] on an invalid date. *)
Definition diff (a : t) (now : Z) : Num.t :=
  match a with
  | Instant ms => Some (ms - now)
  | Invalid => Num.NaN
  end.

(** [a.subtract(n, 'minutes')]: for minutes Day.js shifts the timestamp by
    [n * 60000] milliseconds. *)
Definition subtract_minutes (n : Z) (a : t) : t :=
  match a with
  | Instant ms => Instant (ms - n * 60000)
  | Invalid => Invalid
  end.

(** Wall-clock hour and minute of an instant, in a zone whose offset from
    UTC at that instant is [offset] milliseconds. *)
Definition hourOfDay (offset ms : Z) : Z := ((ms + offset) / 3600000) mod 24.
Definition minuteOfHour (offset ms : Z) : Z := ((ms + offset) / 60000) mod 60.

(** [a.format('H:mm')]: hour without padding, minute on two digits. *)
Definition format_Hmm (utcOffset : Z -> Z) (a : t) : string :=
  match a with
  | Instant ms =>
      Js.toString (hourOfDay (utcOffset ms) ms) ++ ":" ++
      Js.padStart 2 "0" (Js.toString (minuteOfHour (utcOffset ms) ms))
  | Invalid => "Invalid Date"
  end.

End Dayjs.

(** [dayjs.duration(ms)] and its getters [hours()], [minutes()],
    [seconds()] (Day.js duration plug-in): the milliseconds are split into
    years, months, days, hours, minutes and seconds by successive truncated
    division and remainder; a getter gives [base || 0], so 0 on [NaN]. *)

Module Duration.

Definition MILLISECONDS_A_SECOND : Z := 1000.
Definition MILLISECONDS_A_MINUTE : Z := 60 * MILLISECONDS_A_SECOND.
Definition MILLISECONDS_A_HOUR : Z := 60 * MILLISECONDS_A_MINUTE.
Definition MILLISECONDS_A_DAY : Z := 24 * MILLISECONDS_A_HOUR.
Definition MILLISECONDS_A_YEAR : Z := 365 * MILLISECONDS_A_DAY.
Definition MILLISECONDS_A_MONTH : Z := MILLISECONDS_A_YEAR / 12.

Definition belowDay (ms : Z) : Z :=
  Z.rem (Z.rem (Z.rem ms MILLISECONDS_A_YEAR) MILLISECONDS_A_MONTH)
        MILLISECONDS_A_DAY.

Definition hours (d : Num.t) : Z :=
  match d with
  | Some ms => Z.quot (belowDay ms) MILLISECONDS_A_HOUR
  | None => 0
  end.

Definition minutes (d : Num.t) : Z :=
  match d with
  | Some ms =>
      Z.quot (Z.rem (belowDay ms) MILLISECONDS_A_HOUR) MILLISECONDS_A_MINUTE
  | None => 0
  end.

Definition seconds (d : Num.t) : Z :=
  match d with
  | Some ms =>
      Z.quot (Z.rem (Z.rem (belowDay ms) MILLISECONDS_A_HOUR)
                    MILLISECONDS_A_MINUTE)
             MILLISECONDS_A_SECOND
  | None => 0
  end.

End Duration.

(** ** State of the page seen by the controller *)

(** [CountdownMode] of the source: ['netz' | 'sunset']. *)
Inductive CountdownMode : Type := netz | sunset.

Definition modeName (m : CountdownMode) : string :=
  match m with netz => "netz" | sunset => "sunset" end.

Definition isNetz (m : CountdownMode) : bool :=
  match m with netz => true | sunset => false end.

(** A display target: its [textContent] and its [style.color]. *)
Record Element : Type := mkElement {
  textContent : string;
  color : string
}.

Definition withText (text : string) (e : Element) : Element :=
  {| textContent := text; color := color e |}.

Definition withColor (c : string) (e : Element) : Element :=
  {| textContent := textContent e; color := c |}.

(** An entry of the browser's timer table. [Interval] is the repeating
    [tick] armed by [startCountdown]: the closure holds [targetTime] and
    [targetId] (and the element [countdown-<targetId>]). [Timeout] is the
    one-shot mode flip armed by an expired [tick]; its closure holds
    [targetId]. *)
Inductive Timer : Type :=
  | Interval (period : Z) (targetTime : Dayjs.t) (targetId : CountdownMode)
  | Timeout (delay : Z) (targetId : CountdownMode).

(** A call of [fetchZmanim] suspended at [await fetch(url)], with the
    locals it resumes with. *)
Record Request : Type := mkRequest {
  forTomorrow : bool;
  date : string;
  url : string
}.

Record World : Type := mkWorld {
  netzTime : option Dayjs.t;
  sunsetTime : option Dayjs.t;
  alotHashaharTime : option Dayjs.t;
  mode : CountdownMode;
  countdownInterval : Z;
  document : gmap string Element;
  timers : gmap Z Timer;
  nextTimer : Z;
  inflight : list Request;
  console : list string
}.

Definition set_netzTime (v : option Dayjs.t) (w : World) : World :=
  mkWorld v (sunsetTime w) (alotHashaharTime w) (mode w) (countdownInterval w)
          (document w) (timers w) (nextTimer w) (inflight w) (console w).
Definition set_sunsetTime (v : option Dayjs.t) (w : World) : World :=
  mkWorld (netzTime w) v (alotHashaharTime w) (mode w) (countdownInterval w)
          (document w) (timers w) (nextTimer w) (inflight w) (console w).
Definition set_alotHashaharTime (v : option Dayjs.t) (w : World) : World :=
  mkWorld (netzTime w) (sunsetTime w) v (mode w) (countdownInterval w)
          (document w) (timers w) (nextTimer w) (inflight w) (console w).
Definition set_mode (v : CountdownMode) (w : World) : World :=
  mkWorld (netzTime w) (sunsetTime w) (alotHashaharTime w) v (countdownInterval w)
          (document w) (timers w) (nextTimer w) (inflight w) (console w).
Definition set_countdownInterval (v : Z) (w : World) : World :=
  mkWorld (netzTime w) (sunsetTime w) (alotHashaharTime w) (mode w) v
          (document w) (timers w) (nextTimer w) (inflight w) (console w).
Definition set_document (v : gmap string Element) (w : World) : World :=
  mkWorld (netzTime w) (sunsetTime w) (alotHashaharTime w) (mode w) (countdownInterval w)
          v (timers w) (nextTimer w) (inflight w) (console w).
Definition set_timers (v : gmap Z Timer) (w : World) : World :=
  mkWorld (netzTime w) (sunsetTime w) (alotHashaharTime w) (mode w) (countdownInterval w)
          (document w) v (nextTimer w) (inflight w) (console w).
Definition set_nextTimer (v : Z) (w : World) : World :=
  mkWorld (netzTime w) (sunsetTime w) (alotHashaharTime w) (mode w) (countdownInterval w)
          (document w) (timers w) v (inflight w) (console w).
Definition set_inflight (v : list Request) (w : World) : World :=
  mkWorld (netzTime w) (sunsetTime w) (alotHashaharTime w) (mode w) (countdownInterval w)
          (document w) (timers w) (nextTimer w) v (console w).
Definition set_console (v : list string) (w : World) : World :=
  mkWorld (netzTime w) (sunsetTime w) (alotHashaharTime w) (mode w) (countdownInterval w)
          (document w) (timers w) (nextTimer w) (inflight w) v.

(** ** Effects: state and exceptions

    A computation runs on a [World] and either completes normally or
    throws an [Error] with a message; the state changes made before a throw
    stay. *)

Inductive Completion (A : Type) : Type :=
  | Normal (a : A)
  | Throw (message : string).
Arguments Normal {A} a.
Arguments Throw {A} message.

Definition Eff (A : Type) : Type := World -> Completion A * World.

Definition ret {A} (a : A) : Eff A := fun w => (Normal a, w).

Definition bind {A B} (m : Eff A) (k : A -> Eff B) : Eff B :=
  fun w =>
    match m w with
    | (Normal a, w') => k a w'
    | (Throw e, w') => (Throw e, w')
    end.

Definition throw {A} (message : string) : Eff A := fun w => (Throw message, w).

(** [try { m } catch (e) { handler(e.message) }] *)
Definition try_catch {A} (m : Eff A) (handler : string -> Eff A) : Eff A :=
  fun w =>
    match m w with
    | (Normal a, w') => (Normal a, w')
    | (Throw e, w') => handler e w'
    end.

Definition gets {A} (f : World -> A) : Eff A := fun w => (Normal (f w), w).

Definition modify (f : World -> World) : Eff unit := fun w => (Normal tt, f w).

Declare Scope eff_scope.
Delimit Scope eff_scope with eff.
Notation "'let*' x ':=' m 'in' k" := (bind m (fun x => k))
  (at level 10, x name, m at level 100, k at level 200) : eff_scope.
Notation "m ';;' k" := (bind m (fun _ => k))
  (at level 100, k at level 200, right associativity) : eff_scope.
Local Open Scope eff_scope.

(** The world a computation leaves behind, and how it completed. *)
Definition exec {A} (m : Eff A) (w : World) : World := snd (m w).
Definition outcome {A} (m : Eff A) (w : World) : Completion A := fst (m w).

(** ** What the sunrise/sunset provider can answer *)

Module Api.

(** [data.results]: the two time-of-day texts; [None] is a missing (or
    null) property. *)
Record ZmanimResults : Type := mkResults {
  sunrise : option string;
  sunset : option string
}.

(** The parsed body: [results] may be missing. *)
Record ZmanimData : Type := mkData {
  results : option ZmanimResults
}.

End Api.

(** [await response.json()]: it rejects on a body that is not JSON, and the
    value may be [null]. *)
Inductive JsonResult : Type :=
  | JsonRejected (message : string)
  | JsonValue (data : option Api.ZmanimData).

(** [await fetch(url)]: it rejects on a network failure, otherwise it
    gives a response with a [status] and a body. *)
Inductive FetchResult : Type :=
  | FetchRejected (message : string)
  | FetchResponse (status : Z) (body : JsonResult).

(** [response.ok]: the status is in the range 200-299. *)
Definition response_ok (status : Z) : bool :=
  Z.leb 200 status && Z.leb status 299.

(** Truthiness of an optional string: missing and empty are falsy. *)
Definition truthy (s : option string) : bool :=
  match s with
  | Some EmptyString => false
  | Some _ => true
  | None => false
  end.

(** [!data || !data.results || !data.results.sunrise || !data.results.sunset] *)
Definition incomplete (data : option Api.ZmanimData) : bool :=
  match data with
  | None => true
  | Some d =>
      match Api.results d with
      | None => true
      | Some r => negb (truthy (Api.sunrise r)) || negb (truthy (Api.sunset r))
      end
  end.

(** [data.results] once [incomplete] has let the body through. *)
Definition resultsOf (data : option Api.ZmanimData) : Api.ZmanimResults :=
  match data with
  | Some d =>
      match Api.results d with
      | Some r => r
      | None => Api.mkResults None None
      end
  | None => Api.mkResults None None
  end.

(** An optional string inside a template literal. *)
Definition textOf (s : option string) : string :=
  match s with Some t => t | None => "undefined" end.

(** ** The controller *)

(** [LAT] and [LNG] as they print inside the url's template literal. *)
Definition LAT : string := "31.7946859557658".
Definition LNG : string := "35.21589133333333".
Definition TIMEZONE : string := "Asia/Jerusalem".

Definition dquote : string := String (ascii_of_nat 34) EmptyString.

Definition PLACEHOLDER : string := "--:--:--".
Definition TIME_PASSED : string := "עבר הזמן".
Definition API_ERROR : string := "שגיאת API".
Definition SHORT_ERROR : string := "שגיאה".

Definition otherTarget (targetId : CountdownMode) : CountdownMode :=
  match targetId with netz => sunset | sunset => netz end.

(** [targetId === 'netz' ? 'blue' : 'orange'] *)
Definition defaultColor (targetId : CountdownMode) : string :=
  match targetId with netz => "blue" | sunset => "orange" end.

Definition countdownId (targetId : CountdownMode) : string :=
  "countdown-" ++ modeName targetId.

(** ** The calendar providers and the wall clock *)

(** What a request can settle with, for a body whose parsed value has type
    [A]: [fetch] rejects or gives a status and a body; [response.json()]
    rejects or gives a value, which may be [null]. *)
Inductive JsonOf (A : Type) : Type :=
  | BodyRejected (message : string)
  | BodyValue (data : option A).
Arguments BodyRejected {A} message.
Arguments BodyValue {A} data.

Inductive FetchOf (A : Type) : Type :=
  | Rejected (message : string)
  | Responded (status : Z) (body : JsonOf A).
Arguments Rejected {A} message.
Arguments Responded {A} status body.

Module Sefaria.

(** An element of [calendar_items], seen through [title?.he] and
    [displayValue?.he]; [None] is a missing property (or a missing object
    around it). *)
Record CalendarItem : Type := mkItem {
  title_he : option string;
  displayValue_he : option string
}.

(** The parsed body: [calendar_items] may be missing, and an element of
    the array may be [null]. *)
Record Calendars : Type := mkCalendars {
  calendar_items : option (list (option CalendarItem))
}.

End Sefaria.

Module Hebcal.

(** The parsed body of the converter: [hebrew] may be missing. *)
Record Conversion : Type := mkConversion {
  hebrew : option string
}.

End Hebcal.

(** The calendar fields of [dayjs()] that [updateClock] reads: [day()] is
    the day of the week from 0 (Sunday), [month()] the month from 0. *)
Record LocalTime : Type := mkLocalTime {
  lt_hour : Z;
  lt_minute : Z;
  lt_second : Z;
  lt_date : Z;
  lt_year : Z;
  lt_day : nat;
  lt_month : nat
}.

Definition daysFr : list string :=
  ["dimanche"; "lundi"; "mardi"; "mercredi"; "jeudi"; "vendredi"; "samedi"].

Definition monthsFr : list string :=
  ["janvier"; "février"; "mars"; "avril"; "mai"; "juin"; "juillet"; "août";
   "septembre"; "octobre"; "novembre"; "décembre"].

(** [array[i]] inside a template literal: out of range prints as
    [undefined]. *)
Definition at_index (names : list string) (i : nat) : string :=
  match names !! i with Some name => name | None => "undefined" end.

Definition DAF_TITLE : string := "דף יומי".
Definition PARASHA_TITLE : string := "פרשת השבוע".
Definition DAF_NOT_FOUND : string := "לא נמצא דף".
Definition PARASHA_NOT_FOUND : string := "לא נמצאה פרשה".
Definition DATE_UNAVAILABLE : string := "תאריך לא זמין".

(** [items.find(item => item.title?.he === wanted)]: the first element
    with that title, [undefined] when there is none; reading [title] of a
    [null] element met on the way throws. *)
Fixpoint findByTitle (wanted : string) (items : list (option Sefaria.CalendarItem))
    : Completion (option Sefaria.CalendarItem) :=
  match items with
  | [] => Normal None
  | None :: _ => Throw "Cannot read properties of null (reading 'title')"
  | Some item :: rest =>
      match Sefaria.title_he item with
      | Some t => if String.eqb t wanted then Normal (Some item)
                  else findByTitle wanted rest
      | None => findByTitle wanted rest
      end
  end.

(** [found?.displayValue?.he || fallback] *)
Definition displayOr (fallback : string) (found : option Sefaria.CalendarItem) : string :=
  match found with
  | Some item =>
      if truthy (Sefaria.displayValue_he item)
      then textOf (Sefaria.displayValue_he item) else fallback
  | None => fallback
  end.

(** *** A sample page and a sample day

    A page with the five dependent fields and one clock field; a day
    whose local midnight is instant 0, with sunrise at 6:01:00 AM and
    sunset at 4:52:00 PM. *)

Definition samplePage : gmap string Element :=
  list_to_map
    [("countdown-netz", mkElement "--:--:--" "blue");
     ("countdown-sunset", mkElement "--:--:--" "orange");
     ("alot-hashahar-time", mkElement "" "");
     ("sunrise-time", mkElement "" "");
     ("sunset-time", mkElement "" "");
     ("current-date", mkElement "mardi, 03 novembre 2026" "")].

Definition sampleFormatDate (now days : Z) : string :=
  if Z.eqb days 0 then "2026-11-03" else "2026-11-04".

Definition sampleParse (text : string) : Dayjs.t :=
  if String.eqb text "2026-11-03 6:01:00 AM" then Dayjs.Instant 21660000
  else if String.eqb text "2026-11-03 4:52:00 PM" then Dayjs.Instant 60720000
  else Dayjs.Invalid.

Definition sampleOffset (ms : Z) : Z := 0.

Definition sampleData : option Api.ZmanimData :=
  Some (Api.mkData (Some (Api.mkResults (Some "6:01:00 AM") (Some "4:52:00 PM")))).

Definition sampleRequest : Request :=
  mkRequest false "2026-11-03"
    "https://api.sunrisesunset.io/json?lat=31.7946859557658&lng=35.21589133333333&date=2026-11-03&timezone=Asia/Jerusalem".

(** The sample page without the sunset countdown element, a parser that
    reads nothing, a calendar answer and a wall-clock time. *)
Definition samplePageNoSunset : gmap string Element :=
  delete "countdown-sunset" samplePage.

Definition sampleParseNothing (text : string) : Dayjs.t := Dayjs.Invalid.

Definition sampleItems : list Sefaria.CalendarItem :=
  [Sefaria.mkItem (Some "הפטרה") (Some "ישעיהו");
   Sefaria.mkItem (Some "דף יומי") None;
   Sefaria.mkItem (Some "דף יומי") (Some "זבחים נ");
   Sefaria.mkItem (Some "פרשת השבוע") (Some "וירא")].

Definition sampleCalendarPage : gmap string Element :=
  list_to_map
    [("dailyDaf", mkElement "" ""); ("parashaName", mkElement "" "");
     ("current-time", mkElement "" "black"); ("current-date", mkElement "" "")].

Definition sampleLocalTime : LocalTime :=
  mkLocalTime 7 5 9 3 2026 2 10.

Section Controller.

(** Calendar work done by Day.js in the browser's time zone:
    [formatDate now n] is [dayjs().add(n, 'day').format('YYYY-MM-DD')] when
    the clock reads [now]; [parseDateTime text] is
    [dayjs(text, 'YYYY-MM-DD h:mm:ss A')]; [utcOffset ms] is the zone's
    offset from UTC, in milliseconds, at the instant [ms]. *)
Variable formatDate : Z -> Z -> string.
Variable parseDateTime : string -> Dayjs.t.
Variable utcOffset : Z -> Z.

Definition console_error (message : string) : Eff unit :=
  modify (fun w => set_console (console w ++ [message])%list w).

(** [getElement]: the element is named by its id; a missing one throws. *)
Definition getElement (id : string) : Eff string :=
  fun w =>
    match document w !! id with
    | Some _ => (Normal id, w)
    | None =>
        (Throw ("Element with ID " ++ dquote ++ id ++ dquote ++ " not found."), w)
    end.

(** [el.textContent = text] and [el.style.color = c] on an element held by
    the caller. *)
Definition setTextContent (el : string) (text : string) : Eff unit :=
  modify (fun w => set_document (alter (withText text) el (document w)) w).

Definition setColor (el : string) (c : string) : Eff unit :=
  modify (fun w => set_document (alter (withColor c) el (document w)) w).

Definition updateText (id : string) (text : string) : Eff unit :=
  try_catch
    (let* el := getElement id in setTextContent el text)
    (fun e => console_error ("Failed to update element " ++ id ++ ":")).

Definition handleApiError (message : string) : Eff unit :=
  console_error message ;;
  updateText "countdown-netz" API_ERROR ;;
  updateText "countdown-sunset" API_ERROR ;;
  updateText "alot-hashahar-time" SHORT_ERROR ;;
  updateText "sunrise-time" SHORT_ERROR ;;
  updateText "sunset-time" SHORT_ERROR.

(** The browser's timer table: [setInterval] and [setTimeout] hand out
    increasing ids from one counter; [clearInterval] drops the entry with
    the given id, whatever its kind. *)
Definition addTimer (tm : Timer) : Eff Z :=
  fun w =>
    let id := nextTimer w in
    (Normal id, set_nextTimer (id + 1) (set_timers (<[id := tm]> (timers w)) w)).

Definition clearInterval (id : Z) : Eff unit :=
  modify (fun w => set_timers (delete id (timers w)) w).

Definition calculateAlotHashahar (netz : Dayjs.t) : Dayjs.t :=
  Dayjs.subtract_minutes 72 netz.

(** The closure [tick] of [startCountdown], run when the clock reads
    [now]. [el] is [$countdownElement]. *)
Definition tick (targetTime : Dayjs.t) (targetId : CountdownMode)
    (el : string) (now : Z) : Eff unit :=
  let diffMs := Dayjs.diff targetTime now in
  if Num.leb diffMs 0 then
    setTextContent el TIME_PASSED ;;
    setColor el "red" ;;
    (let* id := gets countdownInterval in clearInterval id) ;;
    (let* _ := addTimer (Timeout 5000 targetId) in ret tt)
  else
    let duration := diffMs in
    if Num.gtb diffMs (90 * 60 * 1000) then
      setTextContent el PLACEHOLDER ;;
      setColor el (defaultColor targetId)
    else
      let h := Js.padStart 2 "0" (Js.toString (Duration.hours duration)) in
      let m := Js.padStart 2 "0" (Js.toString (Duration.minutes duration)) in
      let s := Js.padStart 2 "0" (Js.toString (Duration.seconds duration)) in
      let timeStr := h ++ ":" ++ m ++ ":" ++ s in
      let color := defaultColor targetId in
      let color :=
        if Num.leb diffMs (2 * 60 * 1000) then "red"
        else if Num.leb diffMs (5 * 60 * 1000) then "orange"
        else color in
      setTextContent el timeStr ;;
      setColor el color.

(** [startCountdown(targetTime, targetId)]; [now] is the clock reading of
    the first, immediate [tick]. Both callers pass a time whose difference
    to the clock they have just found positive, so the target of an armed
    countdown is a valid instant. *)
Definition startCountdown (targetTime : option Dayjs.t)
    (targetId : CountdownMode) (now : Z) : Eff unit :=
  (let* id := gets countdownInterval in
   if Z.eqb id 0 then ret tt else clearInterval id) ;;
  match targetTime with
  | None => ret tt
  | Some target =>
      let* el := getElement (countdownId targetId) in
      let otherTargetId := otherTarget targetId in
      (let* o := getElement (countdownId otherTargetId) in
       setTextContent o PLACEHOLDER) ;;
      (let* o := getElement (countdownId otherTargetId) in
       setColor o (defaultColor otherTargetId)) ;;
      tick target targetId el now ;;
      let* id := addTimer (Interval 1000 target targetId) in
      modify (set_countdownInterval id)
  end.

(** [fetchZmanim(forTomorrow)] up to [await fetch(url)]: the call computes
    the date and the url, sends the request and suspends. *)
Definition fetchZmanim (forTomorrow : bool) (now : Z) : Eff unit :=
  let date := formatDate now (if forTomorrow then 1 else 0) in
  let url :=
    "https://api.sunrisesunset.io/json?lat=" ++ LAT ++ "&lng=" ++ LNG
      ++ "&date=" ++ date ++ "&timezone=" ++ TIMEZONE in
  modify (fun w => set_inflight (inflight w ++ [mkRequest forTomorrow date url])%list w).

(** The [try] block of [fetchZmanim] from the point where [fetch] settles
    with [result]. [now] is the clock reading of line 302, [now'] the one
    of the call made last ([tick] or the nested [fetchZmanim]). *)
Definition fetchZmanim_try (req : Request) (result : FetchResult)
    (now now' : Z) : Eff unit :=
  match result with
  | FetchRejected message => throw message
  | FetchResponse status body =>
      if negb (response_ok status) then throw ("Erreur HTTP: " ++ Js.toString status)
      else
        match body with
        | JsonRejected message => throw message
        | JsonValue data =>
            if incomplete data then
              throw "Données Zmanim incomplètes ou manquantes dans la réponse API."
            else
              let r := resultsOf data in
              let n := parseDateTime (date req ++ " " ++ textOf (Api.sunrise r)) in
              let s := parseDateTime (date req ++ " " ++ textOf (Api.sunset r)) in
              let a := calculateAlotHashahar n in
              modify (set_netzTime (Some n)) ;;
              modify (set_sunsetTime (Some s)) ;;
              modify (set_alotHashaharTime (Some a)) ;;
              updateText "alot-hashahar-time" (Dayjs.format_Hmm utcOffset a) ;;
              updateText "sunrise-time" (Dayjs.format_Hmm utcOffset n) ;;
              updateText "sunset-time" (Dayjs.format_Hmm utcOffset s) ;;
              let diffNetz := Dayjs.diff n now in
              let diffSunset := Dayjs.diff s now in
              if Num.gtb diffNetz 0 then
                modify (set_mode netz) ;;
                startCountdown (Some n) netz now'
              else if Num.gtb diffSunset 0 then
                modify (set_mode sunset) ;;
                startCountdown (Some s) sunset now'
              else
                modify (set_mode netz) ;;
                fetchZmanim true now'
        end
  end.

(** The resumed call with its [catch]. *)
Definition fetchZmanim_resume (req : Request) (result : FetchResult)
    (now now' : Z) : Eff unit :=
  try_catch
    (fetchZmanim_try req result now now')
    (fun message =>
       handleApiError ("Échec de la récupération des Zmanim: " ++ message)).

(** The callback given to [setTimeout] by an expired [tick]. *)
Definition flipMode (targetId : CountdownMode) (now : Z) : Eff unit :=
  modify (set_mode (if isNetz targetId then sunset else netz)) ;;
  let* m := gets mode in
  fetchZmanim (isNetz m) now.

(** ** The event loop

    Each event runs one callback to completion. A timer fires by its id (a
    timeout leaves the table when it fires; an id no longer in the table
    fires nothing); a pending request settles by its position. *)

Inductive Event : Type :=
  | TimerFires (id : Z) (now : Z)
  | FetchSettles (i : nat) (result : FetchResult) (now now' : Z).

Definition timerFires (id : Z) (now : Z) : Eff unit :=
  let* tm := gets (fun w => timers w !! id) in
  match tm with
  | None => ret tt
  | Some (Interval _ targetTime targetId) =>
      tick targetTime targetId (countdownId targetId) now
  | Some (Timeout _ targetId) =>
      clearInterval id ;;
      flipMode targetId now
  end.

Definition fetchSettles (i : nat) (result : FetchResult) (now now' : Z) : Eff unit :=
  let* r := gets (fun w => inflight w !! i) in
  match r with
  | None => ret tt
  | Some req =>
      modify (fun w => set_inflight (delete i (inflight w)) w) ;;
      fetchZmanim_resume req result now now'
  end.

Definition step (e : Event) (w : World) : World :=
  match e with
  | TimerFires id now => exec (timerFires id now) w
  | FetchSettles i result now now' => exec (fetchSettles i result now now') w
  end.

(** The world when [clock.js] has been evaluated on a page whose elements
    are [page]; [firstTimer] is the id the browser gives out next. *)
Definition initial (page : gmap string Element) (firstTimer : Z) : World :=
  {| netzTime := None; sunsetTime := None; alotHashaharTime := None;
     mode := netz; countdownInterval := 0;
     document := page; timers := ∅; nextTimer := firstTimer;
     inflight := []; console := [] |}.

(** The worlds the page can be in: after the [DOMContentLoaded] handler has
    called [fetchZmanim()], and after any event from such a world. *)
Inductive reachable (page : gmap string Element) (firstTimer : Z) : World -> Prop :=
  | reach_loaded (now : Z) :
      0 < firstTimer ->
      reachable page firstTimer (exec (fetchZmanim false now) (initial page firstTimer))
  | reach_step (w : World) (e : Event) :
      reachable page firstTimer w ->
      reachable page firstTimer (step e w).


(** ** The wall clock and the calendar fields *)

(** [updateClock()], on the calendar fields of [dayjs()]. An element is
    seen through its text: assigning the markup
    [HH:mm<span ...>:ss</span>] to [innerHTML] makes the text [HH:mm:ss]. *)
Definition updateClock (now : LocalTime) : Eff unit :=
  let dayNameFr := at_index daysFr (lt_day now) in
  let monthNameFr := at_index monthsFr (lt_month now) in
  let hh := Js.padStart 2 "0" (Js.toString (lt_hour now)) in
  let mm := Js.padStart 2 "0" (Js.toString (lt_minute now)) in
  let ss := Js.padStart 2 "0" (Js.toString (lt_second now)) in
  let dd := Js.padStart 2 "0" (Js.toString (lt_date now)) in
  let yyyy := Js.padStart 4 "0" (Js.toString (lt_year now)) in
  try_catch
    ((let* el := getElement "current-time" in
      setTextContent el (hh ++ ":" ++ mm ++ ":" ++ ss)) ;;
     updateText "current-date"
       (dayNameFr ++ ", " ++ dd ++ " " ++ monthNameFr ++ " " ++ yyyy))
    (fun e => console_error "Erreur lors de la mise à jour de l'horloge numérique:").

(** Lifting a completion into the effect. *)
Definition complete {A} (c : Completion A) : Eff A := fun w => (c, w).

(** [fetchJewishCalendarData()] from the point where [fetch] settles. *)
Definition fetchJewishCalendarData_try (result : FetchOf Sefaria.Calendars) : Eff unit :=
  match result with
  | Rejected message => throw message
  | Responded status body =>
      if negb (response_ok status) then throw ("HTTP Error: " ++ Js.toString status)
      else
        match body with
        | BodyRejected message => throw message
        | BodyValue data =>
            match data ≫= Sefaria.calendar_items with
            | None => throw "Cannot read properties of undefined (reading 'find')"
            | Some items =>
                let* dafYomi := complete (findByTitle DAF_TITLE items) in
                updateText "dailyDaf" (displayOr DAF_NOT_FOUND dafYomi) ;;
                let* parashaItem := complete (findByTitle PARASHA_TITLE items) in
                updateText "parashaName" (displayOr PARASHA_NOT_FOUND parashaItem)
            end
        end
  end.

Definition fetchJewishCalendarData_resume (result : FetchOf Sefaria.Calendars) : Eff unit :=
  try_catch
    (fetchJewishCalendarData_try result)
    (fun e =>
       console_error "שגיאה בשליפת מידע Sefaria:" ;;
       updateText "dailyDaf" SHORT_ERROR ;;
       updateText "parashaName" SHORT_ERROR).

(** [fetchHebrewDate()] from the point where [fetch] settles. *)
Definition fetchHebrewDate_try (result : FetchOf Hebcal.Conversion) : Eff unit :=
  match result with
  | Rejected message => throw message
  | Responded status body =>
      if negb (response_ok status) then throw ("HTTP Error: " ++ Js.toString status)
      else
        match body with
        | BodyRejected message => throw message
        | BodyValue data =>
            if truthy (data ≫= Hebcal.hebrew)
            then updateText "dateHeb" (textOf (data ≫= Hebcal.hebrew))
            else updateText "dateHeb" DATE_UNAVAILABLE
        end
  end.

Definition fetchHebrewDate_resume (result : FetchOf Hebcal.Conversion) : Eff unit :=
  try_catch
    (fetchHebrewDate_try result)
    (fun e =>
       console_error "שגיאה בשליפת התאריך העברי:" ;;
       updateText "dateHeb" SHORT_ERROR).

(** ** Vocabulary of the specification *)

(** The three urgency tiers and their thresholds, as the specification
    words them. *)
Inductive Tier : Type := Critical | Warning | DefaultTier.

Definition tierOf (remaining : Z) : Tier :=
  if Z.leb remaining 120000 then Critical
  else if Z.leb remaining 300000 then Warning
  else DefaultTier.

Definition tierColor (targetId : CountdownMode) (tier : Tier) : string :=
  match tier with
  | Critical => "red"
  | Warning => "orange"
  | DefaultTier => defaultColor targetId
  end.

(** A number below 100 on exactly two decimal digits. *)
Definition digit (n : Z) : ascii := ascii_of_nat (48 + Z.to_nat n).

Definition twoDigits (n : Z) : string :=
  String (digit (n / 10)) (String (digit (n mod 10)) EmptyString).

(** [HH:MM:SS] of a remaining time in milliseconds. *)
Definition HHMMSS (remaining : Z) : string :=
  twoDigits (remaining / 3600000) ++ ":" ++
  twoDigits ((remaining / 60000) mod 60) ++ ":" ++
  twoDigits ((remaining / 1000) mod 60).

(** The element of a countdown field, if the page has it. *)
Definition field (w : World) (targetId : CountdownMode) : option Element :=
  document w !! countdownId targetId.

(** The five display fields that depend on the zmanim, and the marker
    [handleApiError] writes in each. *)
Definition dependentFields : list string :=
  ["countdown-netz"; "countdown-sunset"; "alot-hashahar-time";
   "sunrise-time"; "sunset-time"].

Definition errorMarker (id : string) : string :=
  if String.eqb id "countdown-netz" || String.eqb id "countdown-sunset"
  then API_ERROR else SHORT_ERROR.

(** A refresh fails when the request is rejected, the status is outside
    200-299, the body is not JSON, or [results.sunrise] or
    [results.sunset] is missing. *)
Definition fetchFailed (result : FetchResult) : bool :=
  match result with
  | FetchRejected _ => true
  | FetchResponse status body =>
      negb (response_ok status) ||
      match body with
      | JsonRejected _ => true
      | JsonValue data => incomplete data
      end
  end.

(** A field shows a live countdown when its text reads [dd:dd:dd]. *)
Definition isDigit (c : ascii) : bool :=
  (48 <=? nat_of_ascii c)%nat && (nat_of_ascii c <=? 57)%nat.

Definition isColon (c : ascii) : bool := Ascii.eqb c ":"%char.

Definition isCountdownText (s : string) : bool :=
  match s with
  | String h1 (String h2 (String c1 (String m1 (String m2 (String c2
      (String s1 (String s2 EmptyString))))))) =>
      isDigit h1 && isDigit h2 && isColon c1 && isDigit m1 && isDigit m2
      && isColon c2 && isDigit s1 && isDigit s2
  | _ => false
  end.


(** *** What the controller's steps do to the world *)

(** The text and the color a [tick] leaves in its field when the
    difference to the target is [diffMs]. *)
Definition tickText (diffMs : Num.t) : string :=
  if Num.leb diffMs 0 then TIME_PASSED
  else if Num.gtb diffMs (90 * 60 * 1000) then PLACEHOLDER
  else Js.padStart 2 "0" (Js.toString (Duration.hours diffMs)) ++ ":" ++
       Js.padStart 2 "0" (Js.toString (Duration.minutes diffMs)) ++ ":" ++
       Js.padStart 2 "0" (Js.toString (Duration.seconds diffMs)).

Definition tickColor (targetId : CountdownMode) (diffMs : Num.t) : string :=
  if Num.leb diffMs 0 then "red"
  else if Num.gtb diffMs (90 * 60 * 1000) then defaultColor targetId
  else if Num.leb diffMs (2 * 60 * 1000) then "red"
  else if Num.leb diffMs (5 * 60 * 1000) then "orange"
  else defaultColor targetId.

(** Text, then color, written to one element. *)
Definition paint (el text c : string) (w : World) : World :=
  set_document (alter (withColor c) el (alter (withText text) el (document w))) w.

Definition write (el text : string) (w : World) : World :=
  set_document (alter (withText text) el (document w)) w.

(** [if (countdownInterval) clearInterval(countdownInterval)] *)
Definition cancel (w : World) : World :=
  if Z.eqb (countdownInterval w) 0 then w
  else set_timers (delete (countdownInterval w) (timers w)) w.

(** An expired tick: the interval is cleared and the mode flip is
    scheduled. *)
Definition expire (targetId : CountdownMode) (w : World) : World :=
  set_nextTimer (nextTimer w + 1)
    (set_timers (<[nextTimer w := Timeout 5000 targetId]>
                   (delete (countdownInterval w) (timers w))) w).

(** [countdownInterval = setInterval(tick, 1000)] *)
Definition arm (target : Dayjs.t) (targetId : CountdownMode) (w : World) : World :=
  set_countdownInterval (nextTimer w)
    (set_nextTimer (nextTimer w + 1)
       (set_timers (<[nextTimer w := Interval 1000 target targetId]> (timers w)) w)).

Definition ticked (target : Dayjs.t) (targetId : CountdownMode) (el : string)
    (now : Z) (w : World) : World :=
  let diffMs := Dayjs.diff target now in
  if Num.leb diffMs 0 then expire targetId (paint el TIME_PASSED "red" w)
  else paint el (tickText diffMs) (tickColor targetId diffMs) w.

(** The three times stored and shown by a refresh that got sunrise [n]
    and sunset [s]. *)
Definition stored (n s : Dayjs.t) (w : World) : World :=
  write "sunset-time" (Dayjs.format_Hmm utcOffset s)
    (write "sunrise-time" (Dayjs.format_Hmm utcOffset n)
       (write "alot-hashahar-time" (Dayjs.format_Hmm utcOffset (calculateAlotHashahar n))
          (set_alotHashaharTime (Some (calculateAlotHashahar n))
             (set_sunsetTime (Some s) (set_netzTime (Some n) w))))).

(** The five error markers written by [handleApiError]. *)
Definition marked (w : World) : World :=
  write "sunset-time" SHORT_ERROR
    (write "sunrise-time" SHORT_ERROR
       (write "alot-hashahar-time" SHORT_ERROR
          (write "countdown-sunset" API_ERROR
             (write "countdown-netz" API_ERROR w)))).

(** The request a call [fetchZmanim(forTomorrow)] sends when the clock
    reads [now]. *)
Definition requestFor (forTomorrow : bool) (now : Z) : Request :=
  let date := formatDate now (if forTomorrow then 1 else 0) in
  mkRequest forTomorrow date
    ("https://api.sunrisesunset.io/json?lat=" ++ LAT ++ "&lng=" ++ LNG
       ++ "&date=" ++ date ++ "&timezone=" ++ TIMEZONE).

(** *** Invariants of the event loop *)

(** Timer discipline: ids are positive and below the counter; a live
    countdown interval is the one [countdownInterval] names, has period one
    second and writes to an element of the page; [countdownInterval] never
    names a pending timeout. *)
Definition Inv (w : World) : Prop :=
  0 < nextTimer w /\
  0 <= countdownInterval w < nextTimer w /\
  (forall id tm, timers w !! id = Some tm -> 0 < id < nextTimer w) /\
  (forall id p t X, timers w !! id = Some (Interval p t X) ->
     id = countdownInterval w /\ p = 1000 /\ is_Some (field w X)) /\
  (forall d X, timers w !! countdownInterval w <> Some (Timeout d X)).

(** The stored dawn is the stored sunrise moved by
    [calculateAlotHashahar]. *)
Definition dawnInv (w : World) : Prop :=
  alotHashaharTime w = calculateAlotHashahar <$> netzTime w.

(** No countdown interval is alive. *)
Definition quiet (w : World) : Prop :=
  forall id p t X, timers w !! id <> Some (Interval p t X).


(** *** Vocabulary of the further properties *)

(** The line [updateText] logs when the element is missing. *)
Definition updateFailure (id : string) : string :=
  "Failed to update element " ++ id ++ ":".

(** The page has no element with this id. *)
Definition absent (w : World) (id : string) : bool :=
  match document w !! id with Some _ => false | None => true end.

(** The message of the error [getElement] throws. *)
Definition notFound (id : string) : string :=
  "Element with ID " ++ dquote ++ id ++ dquote ++ " not found.".

(** The callback [item => item.title?.he === wanted] of [find]. *)
Definition hasTitle (wanted : string) (item : Sefaria.CalendarItem) : bool :=
  match Sefaria.title_he item with
  | Some t => String.eqb t wanted
  | None => false
  end.

(** The part of [page] the controller leaves alone, in a document [d]:
    every element but the five dependent fields, the set of elements, and
    the color of the three time fields. *)
Definition untouched (page d : gmap string Element) : Prop :=
  (forall k, ~ In k dependentFields -> d !! k = page !! k) /\
  (forall k, is_Some (d !! k) <-> is_Some (page !! k)) /\
  (forall k, In k ["alot-hashahar-time"; "sunrise-time"; "sunset-time"] ->
     color <$> d !! k = color <$> page !! k).

(** The calendar request fails when it is rejected, the status is outside
    200-299, the body is not JSON, or it has no [calendar_items]. *)
Definition calendarFailed (result : FetchOf Sefaria.Calendars) : bool :=
  match result with
  | Rejected _ => true
  | Responded status body =>
      negb (response_ok status) ||
      match body with
      | BodyRejected _ => true
      | BodyValue data =>
          match data ≫= Sefaria.calendar_items with
          | None => true
          | Some _ => false
          end
      end
  end.

(** The text the Hebrew date field ends with, for each way the request
    can settle. *)
Definition hebrewDateText (result : FetchOf Hebcal.Conversion) : string :=
  match result with
  | Rejected _ => SHORT_ERROR
  | Responded status body =>
      if response_ok status then
        match body with
        | BodyRejected _ => SHORT_ERROR
        | BodyValue data =>
            match data ≫= Hebcal.hebrew with
            | Some (String c rest) => String c rest
            | _ => DATE_UNAVAILABLE
            end
        end
      else SHORT_ERROR
  end.

(** ** Reasoning about effects *)

Ltac eff_unfold :=
  unfold exec, outcome, bind, ret, throw, try_catch, gets, modify in *.

(** *** Two-digit rendering *)

Lemma padStart_two_table :
  forallb (fun k => String.eqb (Js.padStart 2 "0" (Js.toString (Z.of_nat k)))
                               (twoDigits (Z.of_nat k)))
          (seq 0 100) = true.
Proof. vm_compute. reflexivity. Qed.

Lemma padStart_twoDigits (n : Z) :
  0 <= n < 100 -> Js.padStart 2 "0" (Js.toString n) = twoDigits n.
Proof.
  intros Hn.
  pose proof padStart_two_table as Htable.
  rewrite forallb_forall in Htable.
  specialize (Htable (Z.to_nat n)).
  rewrite Z2Nat.id in Htable by lia.
  apply String.eqb_eq, Htable, in_seq. lia.
Qed.

Lemma twoDigits_digits_table :
  forallb (fun k =>
             match twoDigits (Z.of_nat k) with
             | String a (String b EmptyString) => isDigit a && isDigit b
             | _ => false
             end)
          (seq 0 100) = true.
Proof. vm_compute. reflexivity. Qed.

Lemma twoDigits_digits (n : Z) :
  0 <= n < 100 ->
  exists a b, twoDigits n = String a (String b EmptyString) /\
              isDigit a = true /\ isDigit b = true.
Proof.
  intros Hn.
  pose proof twoDigits_digits_table as Htable.
  rewrite forallb_forall in Htable.
  specialize (Htable (Z.to_nat n)).
  rewrite Z2Nat.id in Htable by lia.
  assert (Hin : In (Z.to_nat n) (seq 0 100)) by (apply in_seq; lia).
  specialize (Htable Hin).
  unfold twoDigits in *.
  exists (digit (n / 10)), (digit (n mod 10)).
  split; [reflexivity|].
  apply andb_prop in Htable. exact Htable.
Qed.

(** *** The duration getters below one day *)

Lemma belowDay_small (ms : Z) :
  0 <= ms < 86400000 -> Duration.belowDay ms = ms.
Proof.
  intros Hms. unfold Duration.belowDay.
  change Duration.MILLISECONDS_A_YEAR with 31536000000.
  change Duration.MILLISECONDS_A_MONTH with 2628000000.
  change Duration.MILLISECONDS_A_DAY with 86400000.
  do 3 (rewrite (Z.rem_small ms) by lia). reflexivity.
Qed.

Lemma hours_small (ms : Z) :
  0 <= ms < 86400000 -> Duration.hours (Some ms) = ms / 3600000.
Proof.
  intros Hms. unfold Duration.hours. rewrite belowDay_small by exact Hms.
  change Duration.MILLISECONDS_A_HOUR with 3600000.
  apply Z.quot_div_nonneg; lia.
Qed.

Lemma minutes_small (ms : Z) :
  0 <= ms < 86400000 -> Duration.minutes (Some ms) = (ms / 60000) mod 60.
Proof.
  clear formatDate parseDateTime utcOffset. intros Hms. unfold Duration.minutes. rewrite belowDay_small by exact Hms.
  change Duration.MILLISECONDS_A_HOUR with 3600000.
  change Duration.MILLISECONDS_A_MINUTE with 60000.
  rewrite (Z.rem_mod_nonneg ms) by lia.
  pose proof (Z.mod_pos_bound ms 3600000 eq_refl) as Hh.
  rewrite Z.quot_div_nonneg by lia.
  Z.div_mod_to_equations. lia.
Qed.

Lemma seconds_small (ms : Z) :
  0 <= ms < 86400000 -> Duration.seconds (Some ms) = (ms / 1000) mod 60.
Proof.
  clear formatDate parseDateTime utcOffset. intros Hms. unfold Duration.seconds. rewrite belowDay_small by exact Hms.
  change Duration.MILLISECONDS_A_HOUR with 3600000.
  change Duration.MILLISECONDS_A_MINUTE with 60000.
  change Duration.MILLISECONDS_A_SECOND with 1000.
  rewrite (Z.rem_mod_nonneg ms) by lia.
  pose proof (Z.mod_pos_bound ms 3600000 eq_refl) as Hh.
  rewrite (Z.rem_mod_nonneg (ms mod 3600000)) by lia.
  pose proof (Z.mod_pos_bound (ms mod 3600000) 60000 eq_refl) as Hm.
  rewrite Z.quot_div_nonneg by lia.
  Z.div_mod_to_equations. lia.
Qed.

Lemma timeStr_HHMMSS (ms : Z) :
  0 <= ms <= 5400000 ->
  Js.padStart 2 "0" (Js.toString (Duration.hours (Some ms))) ++ ":" ++
  Js.padStart 2 "0" (Js.toString (Duration.minutes (Some ms))) ++ ":" ++
  Js.padStart 2 "0" (Js.toString (Duration.seconds (Some ms)))
  = HHMMSS ms.
Proof.
  intros Hms. unfold HHMMSS.
  rewrite hours_small, minutes_small, seconds_small by lia.
  rewrite !padStart_twoDigits; try reflexivity.
  - pose proof (Z.mod_pos_bound (ms / 1000) 60). lia.
  - pose proof (Z.mod_pos_bound (ms / 60000) 60). lia.
  - split.
    + apply Z.div_pos; lia.
    + apply Z.div_lt_upper_bound; lia.
Qed.


(** *** Equations of the controller's functions *)

Lemma bind_normal {A B} (m : Eff A) (k : A -> Eff B) (w : World) (a : A) (w' : World) :
  m w = (Normal a, w') -> bind m k w = k a w'.
Proof. intros Hm. unfold bind. rewrite Hm. reflexivity. Qed.

Lemma bind_throw {A B} (m : Eff A) (k : A -> Eff B) (w : World) (e : string) (w' : World) :
  m w = (Throw e, w') -> bind m k w = (Throw e, w').
Proof. intros Hm. unfold bind. rewrite Hm. reflexivity. Qed.

Lemma bind_modify {B} (f : World -> World) (k : unit -> Eff B) (w : World) :
  bind (modify f) k w = k tt (f w).
Proof. reflexivity. Qed.

Lemma tick_run (target : Dayjs.t) (X : CountdownMode) (el : string) (now : Z) (w : World) :
  tick target X el now w = (Normal tt, ticked target X el now w).
Proof.
  unfold tick, ticked, tickText, tickColor.
  destruct (Num.leb (Dayjs.diff target now) 0); [reflexivity|].
  destruct (Num.gtb (Dayjs.diff target now) (90 * 60 * 1000)); reflexivity.
Qed.

Lemma alter_absent {K : Type} `{Countable K} {V : Type} (f : V -> V) (k : K) (m : gmap K V) :
  m !! k = None -> alter f k m = m.
Proof.
  intros Hk. apply map_eq. intros j. rewrite lookup_alter.
  case_decide; [subst; rewrite Hk; reflexivity | reflexivity].
Qed.

Lemma updateText_run (id text : string) (w : World) :
  exists c, updateText id text w = (Normal tt, set_console c (write id text w)).
Proof.
  unfold updateText, getElement, write. eff_unfold.
  destruct (document w !! id) eqn:Hid; simpl.
  - exists (console w). reflexivity.
  - eexists. unfold console_error, modify, set_console, set_document. simpl.
    rewrite alter_absent by exact Hid. reflexivity.
Qed.

Lemma handleApiError_run (message : string) (w : World) :
  exists c,
    handleApiError message w =
    (Normal tt, set_console c (marked w)).
Proof.
  unfold handleApiError, console_error, bind, modify.
  repeat match goal with
         | |- context [updateText ?id ?text ?w0] =>
             let c := fresh "c" in
             let Hc := fresh "Hc" in
             destruct (updateText_run id text w0) as [c Hc]; rewrite Hc; clear Hc
         end.
  eexists. reflexivity.
Qed.

Lemma cancel_document (w : World) : document (cancel w) = document w.
Proof. unfold cancel. destruct (Z.eqb (countdownInterval w) 0); reflexivity. Qed.

Lemma cancel_field (w : World) (X : CountdownMode) : field (cancel w) X = field w X.
Proof. unfold field. rewrite cancel_document. reflexivity. Qed.

Lemma startCountdown_null (X : CountdownMode) (now : Z) (w : World) :
  startCountdown None X now w = (Normal tt, cancel w).
Proof.
  unfold startCountdown, cancel, clearInterval. eff_unfold.
  destruct (Z.eqb (countdownInterval w) 0); reflexivity.
Qed.

Lemma startCountdown_run (t : Dayjs.t) (X : CountdownMode) (now : Z) (w : World) :
  is_Some (field w X) ->
  is_Some (field w (otherTarget X)) ->
  startCountdown (Some t) X now w =
  (Normal tt,
   arm t X
     (ticked t X (countdownId X) now
        (paint (countdownId (otherTarget X)) PLACEHOLDER
               (defaultColor (otherTarget X)) (cancel w)))).
Proof.
  intros [e He] [o Ho].
  rewrite <- (cancel_field w) in He, Ho. unfold field in He, Ho.
  unfold startCountdown, bind at 1.
  assert (Hc : (let* id := gets countdownInterval in
                if Z.eqb id 0 then ret tt else clearInterval id) w
               = (Normal tt, cancel w)).
  { unfold cancel, clearInterval. eff_unfold.
    destruct (Z.eqb (countdownInterval w) 0); reflexivity. }
  rewrite Hc. clear Hc.
  unfold bind at 1, getElement at 1. rewrite He.
  unfold bind at 1, bind at 1, getElement at 1. rewrite Ho.
  unfold setTextContent at 1, modify at 1.
  unfold bind at 1, bind at 1, getElement at 1.
  cbn [document set_document].
  rewrite lookup_alter_eq, Ho. cbn [fmap option_fmap option_map].
  unfold setColor at 1, modify at 1.
  unfold bind at 1. rewrite tick_run.
  reflexivity.
Qed.

Lemma startCountdown_throw (t : Dayjs.t) (X : CountdownMode) (now : Z) (w : World) :
  field w X = None \/ field w (otherTarget X) = None ->
  exists message, startCountdown (Some t) X now w = (Throw message, cancel w).
Proof.
  intros Hmiss.
  unfold startCountdown, bind at 1.
  assert (Hc : (let* id := gets countdownInterval in
                if Z.eqb id 0 then ret tt else clearInterval id) w
               = (Normal tt, cancel w)).
  { unfold cancel, clearInterval. eff_unfold.
    destruct (Z.eqb (countdownInterval w) 0); reflexivity. }
  rewrite Hc. clear Hc.
  unfold bind at 1, getElement at 1.
  destruct (document (cancel w) !! countdownId X) eqn:He.
  - destruct Hmiss as [Hx|Ho].
    + rewrite <- (cancel_field w) in Hx. unfold field in Hx. congruence.
    + rewrite <- (cancel_field w) in Ho. unfold field in Ho.
      unfold bind at 1, bind at 1, getElement at 1. rewrite Ho.
      eexists. reflexivity.
  - eexists. reflexivity.
Qed.

Lemma fetchZmanim_try_failed (req : Request) (result : FetchResult) (now now' : Z) (w : World) :
  fetchFailed result = true ->
  exists message, fetchZmanim_try req result now now' w = (Throw message, w).
Proof.
  unfold fetchFailed, fetchZmanim_try. intros Hfail.
  destruct result as [message|status body]; [eexists; reflexivity|].
  destruct (response_ok status); simpl in *; [|eexists; reflexivity].
  destruct body as [message|data]; [eexists; reflexivity|].
  rewrite Hfail. eexists. reflexivity.
Qed.

Lemma fetchZmanim_resume_failed (req : Request) (result : FetchResult) (now now' : Z) (w : World) :
  fetchFailed result = true ->
  exists c, fetchZmanim_resume req result now now' w = (Normal tt, set_console c (marked w)).
Proof.
  intros Hfail. unfold fetchZmanim_resume, try_catch.
  destruct (fetchZmanim_try_failed req result now now' w Hfail) as [message ->].
  apply handleApiError_run.
Qed.

Lemma fetchZmanim_try_complete (req : Request) (status : Z) (data : option Api.ZmanimData)
    (now now' : Z) (w : World) :
  response_ok status = true ->
  incomplete data = false ->
  let n := parseDateTime (date req ++ " " ++ textOf (Api.sunrise (resultsOf data))) in
  let s := parseDateTime (date req ++ " " ++ textOf (Api.sunset (resultsOf data))) in
  exists c,
    fetchZmanim_try req (FetchResponse status (JsonValue data)) now now' w =
    (if Num.gtb (Dayjs.diff n now) 0 then
       startCountdown (Some n) netz now'
     else if Num.gtb (Dayjs.diff s now) 0 then
       startCountdown (Some s) sunset now'
     else fetchZmanim true now')
      (set_mode (if Num.gtb (Dayjs.diff n now) 0 then netz
                 else if Num.gtb (Dayjs.diff s now) 0 then sunset else netz)
         (set_console c (stored n s w))).
Proof.
  intros Hok Hdata n s. unfold fetchZmanim_try. rewrite Hok, Hdata.
  change (negb true) with false. cbv beta zeta iota. fold n s.
  rewrite !bind_modify.
  destruct (updateText_run "alot-hashahar-time"
              (Dayjs.format_Hmm utcOffset (calculateAlotHashahar n))
              (set_alotHashaharTime (Some (calculateAlotHashahar n))
                 (set_sunsetTime (Some s) (set_netzTime (Some n) w)))) as [c1 H1].
  rewrite (bind_normal _ _ _ _ _ H1).
  destruct (updateText_run "sunrise-time" (Dayjs.format_Hmm utcOffset n)
              (set_console c1
                 (write "alot-hashahar-time"
                    (Dayjs.format_Hmm utcOffset (calculateAlotHashahar n))
                    (set_alotHashaharTime (Some (calculateAlotHashahar n))
                       (set_sunsetTime (Some s) (set_netzTime (Some n) w)))))) as [c2 H2].
  rewrite (bind_normal _ _ _ _ _ H2).
  match goal with
  | |- context [bind (updateText ?id ?text) ?k ?w0] =>
      destruct (updateText_run id text w0) as [c3 H3];
      rewrite (bind_normal _ _ _ _ _ H3)
  end.
  exists c3.
  destruct (Num.gtb (Dayjs.diff n now) 0); [rewrite bind_modify; reflexivity|].
  destruct (Num.gtb (Dayjs.diff s now) 0); rewrite bind_modify; reflexivity.
Qed.

(** *** Fields under the world transformers *)

Lemma countdownId_inj (X Y : CountdownMode) : countdownId X = countdownId Y -> X = Y.
Proof.
  destruct X, Y; intros Heq; try reflexivity; vm_compute in Heq; discriminate.
Qed.

Lemma countdownId_other (X : CountdownMode) : countdownId (otherTarget X) <> countdownId X.
Proof. intros Heq. apply countdownId_inj in Heq. destruct X; discriminate. Qed.

Lemma field_write (el text : string) (w : World) (X : CountdownMode) :
  field (write el text w) X =
  if decide (el = countdownId X) then withText text <$> field w X else field w X.
Proof.
  unfold field, write. cbn [document set_document].
  rewrite lookup_alter. case_decide; [subst|]; reflexivity.
Qed.

Lemma field_paint (el text c : string) (w : World) (X : CountdownMode) :
  field (paint el text c w) X =
  if decide (el = countdownId X) then (fun _ => mkElement text c) <$> field w X
  else field w X.
Proof.
  unfold field, paint. cbn [document set_document].
  destruct (decide (el = countdownId X)) as [->|Hne].
  - rewrite !lookup_alter_eq. destruct (document w !! countdownId X); reflexivity.
  - rewrite !lookup_alter_ne by exact Hne. reflexivity.
Qed.

Lemma field_ticked (t : Dayjs.t) (X : CountdownMode) (el : string) (now : Z)
    (w : World) (Y : CountdownMode) :
  field (ticked t X el now w) Y =
  if decide (el = countdownId Y)
  then (fun _ => mkElement (tickText (Dayjs.diff t now)) (tickColor X (Dayjs.diff t now)))
         <$> field w Y
  else field w Y.
Proof.
  unfold ticked, tickText, tickColor.
  destruct (Num.leb (Dayjs.diff t now) 0).
  - change (field (expire X (paint el TIME_PASSED "red" w)) Y)
      with (field (paint el TIME_PASSED "red" w) Y).
    apply field_paint.
  - apply field_paint.
Qed.

Lemma is_Some_field_write (el text : string) (w : World) (X : CountdownMode) :
  is_Some (field w X) -> is_Some (field (write el text w) X).
Proof.
  rewrite field_write. intros [e He]. rewrite He. case_decide; eauto.
Qed.

Lemma is_Some_field_paint (el text c : string) (w : World) (X : CountdownMode) :
  is_Some (field w X) -> is_Some (field (paint el text c w) X).
Proof.
  rewrite field_paint. intros [e He]. rewrite He. case_decide; eauto.
Qed.

Lemma is_Some_field_ticked (t : Dayjs.t) (X : CountdownMode) (el : string) (now : Z)
    (w : World) (Y : CountdownMode) :
  is_Some (field w Y) -> is_Some (field (ticked t X el now w) Y).
Proof.
  rewrite field_ticked. intros [e He]. rewrite He. case_decide; eauto.
Qed.

(** *** The timer discipline is kept *)

Lemma Inv_shrink (w w' : World) :
  nextTimer w' = nextTimer w ->
  countdownInterval w' = countdownInterval w ->
  (forall id tm, timers w' !! id = Some tm -> timers w !! id = Some tm) ->
  (forall X, is_Some (field w X) -> is_Some (field w' X)) ->
  Inv w -> Inv w'.
Proof.
  intros Hn Hc Ht Hf (Hpos & Hci & Hids & Hint & Hto).
  unfold Inv. rewrite Hn, Hc.
  split; [exact Hpos|]. split; [exact Hci|]. split; [|split].
  - intros id tm Hid. apply (Hids id tm), Ht, Hid.
  - intros id p t X Hid. apply Ht in Hid.
    destruct (Hint id p t X Hid) as (Hid_ci & Hp & Hel).
    split; [exact Hid_ci|]. split; [exact Hp|]. apply Hf, Hel.
  - intros d X Hid. apply Ht in Hid. exact (Hto d X Hid).
Qed.

Lemma Inv_frame (w w' : World) :
  nextTimer w' = nextTimer w ->
  countdownInterval w' = countdownInterval w ->
  timers w' = timers w ->
  (forall X, is_Some (field w X) -> is_Some (field w' X)) ->
  Inv w -> Inv w'.
Proof.
  intros Hn Hc Ht. apply Inv_shrink; try assumption.
  rewrite Ht. auto.
Qed.

Lemma quiet_frame (w w' : World) :
  timers w' = timers w -> quiet w -> quiet w'.
Proof. unfold quiet. intros ->. auto. Qed.

Lemma Inv_write (el text : string) (w : World) : Inv w -> Inv (write el text w).
Proof.
  apply Inv_frame; try reflexivity. intros X. apply is_Some_field_write.
Qed.

Lemma Inv_paint (el text c : string) (w : World) : Inv w -> Inv (paint el text c w).
Proof.
  apply Inv_frame; try reflexivity. intros X. apply is_Some_field_paint.
Qed.

Lemma Inv_marked (w : World) : Inv w -> Inv (marked w).
Proof. intros Hw. unfold marked. repeat apply Inv_write. exact Hw. Qed.

Lemma Inv_stored (n s : Dayjs.t) (w : World) : Inv w -> Inv (stored n s w).
Proof.
  intros Hw. unfold stored. repeat apply Inv_write.
  revert Hw. apply Inv_frame; try reflexivity. auto.
Qed.

Lemma cancel_timers (w : World) (id : Z) (tm : Timer) :
  timers (cancel w) !! id = Some tm ->
  timers w !! id = Some tm /\ (countdownInterval w <> 0 -> id <> countdownInterval w).
Proof.
  unfold cancel.
  destruct (Z.eqb_spec (countdownInterval w) 0) as [Hzero|Hnz].
  - intros Hid. split; [exact Hid|]. intros Hne. contradiction.
  - cbn [timers set_timers]. intros Hid.
    apply lookup_delete_Some in Hid as [Hne Hid]. split; [exact Hid|]. auto.
Qed.

Lemma cancel_nextTimer (w : World) : nextTimer (cancel w) = nextTimer w.
Proof. unfold cancel. destruct (Z.eqb (countdownInterval w) 0); reflexivity. Qed.

Lemma cancel_countdownInterval (w : World) :
  countdownInterval (cancel w) = countdownInterval w.
Proof. unfold cancel. destruct (Z.eqb (countdownInterval w) 0); reflexivity. Qed.

Lemma Inv_cancel (w : World) : Inv w -> Inv (cancel w).
Proof.
  apply Inv_shrink.
  - apply cancel_nextTimer.
  - apply cancel_countdownInterval.
  - intros id tm Hid. apply cancel_timers in Hid. tauto.
  - intros X. rewrite cancel_field. auto.
Qed.

Lemma quiet_cancel (w : World) : Inv w -> quiet (cancel w).
Proof.
  intros (Hpos & Hci & Hids & Hint & Hto) id p t X Hid.
  apply cancel_timers in Hid as [Hid Hne].
  destruct (Hint id p t X Hid) as (Hid_ci & _).
  apply Hids in Hid. apply Hne; lia.
Qed.

Lemma Inv_expire (X : CountdownMode) (w : World) : Inv w -> Inv (expire X w).
Proof.
  intros (Hpos & Hci & Hids & Hint & Hto). unfold Inv, expire.
  cbn [nextTimer countdownInterval timers set_timers set_nextTimer].
  split; [lia|]. split; [lia|]. split; [|split].
  - intros id tm Hid. apply lookup_insert_Some in Hid as [[<- _]|[_ Hid]]; [lia|].
    apply lookup_delete_Some in Hid as [_ Hid]. apply Hids in Hid. lia.
  - intros id p t Y Hid. apply lookup_insert_Some in Hid as [[_ Heq]|[_ Hid]];
      [discriminate|].
    apply lookup_delete_Some in Hid as [_ Hid]. apply (Hint id p t Y Hid).
  - intros d Y. rewrite lookup_insert_ne by lia. rewrite lookup_delete_eq. discriminate.
Qed.

Lemma quiet_expire (X : CountdownMode) (w : World) : Inv w -> quiet (expire X w).
Proof.
  intros (Hpos & Hci & Hids & Hint & Hto) id p t Y. unfold expire.
  cbn [timers set_timers set_nextTimer]. intros Hid.
  apply lookup_insert_Some in Hid as [[_ Heq]|[_ Hid]]; [discriminate|].
  apply lookup_delete_Some in Hid as [Hne Hid].
  destruct (Hint id p t Y Hid) as (Hid_ci & _). congruence.
Qed.

Lemma Inv_ticked (t : Dayjs.t) (X : CountdownMode) (el : string) (now : Z) (w : World) :
  Inv w -> Inv (ticked t X el now w).
Proof.
  intros Hw. unfold ticked.
  destruct (Num.leb (Dayjs.diff t now) 0).
  - apply Inv_expire, Inv_paint, Hw.
  - apply Inv_paint, Hw.
Qed.

Lemma quiet_ticked (t : Dayjs.t) (X : CountdownMode) (el : string) (now : Z) (w : World) :
  Inv w -> quiet w -> quiet (ticked t X el now w).
Proof.
  intros Hw Hq. unfold ticked.
  destruct (Num.leb (Dayjs.diff t now) 0).
  - apply quiet_expire, Inv_paint, Hw.
  - exact Hq.
Qed.

Lemma Inv_arm (t : Dayjs.t) (X : CountdownMode) (w : World) :
  Inv w -> quiet w -> is_Some (field w X) -> Inv (arm t X w).
Proof.
  intros (Hpos & Hci & Hids & Hint & Hto) Hq Hel. unfold Inv, arm.
  cbn [nextTimer countdownInterval timers set_timers set_nextTimer set_countdownInterval].
  split; [lia|]. split; [lia|]. split; [|split].
  - intros id tm Hid. apply lookup_insert_Some in Hid as [[<- _]|[_ Hid]]; [lia|].
    apply Hids in Hid. lia.
  - intros id p t' Y Hid. apply lookup_insert_Some in Hid as [[<- Heq]|[_ Hid]].
    + injection Heq as <- <- <-. split; [reflexivity|]. split; [reflexivity|]. exact Hel.
    + exfalso. exact (Hq id p t' Y Hid).
  - intros d Y. rewrite lookup_insert_eq. discriminate.
Qed.

(** One alive interval at most, under the discipline. *)
Lemma Inv_single (w : World) (id1 id2 : Z) (p1 p2 : Z) (t1 t2 : Dayjs.t)
    (X1 X2 : CountdownMode) :
  Inv w ->
  timers w !! id1 = Some (Interval p1 t1 X1) ->
  timers w !! id2 = Some (Interval p2 t2 X2) ->
  id1 = id2 /\ p1 = 1000 /\ p2 = 1000 /\ t1 = t2 /\ X1 = X2.
Proof.
  intros (_ & _ & _ & Hint & _) H1 H2.
  destruct (Hint _ _ _ _ H1) as (E1 & P1 & _).
  destruct (Hint _ _ _ _ H2) as (E2 & P2 & _).
  subst id1 id2. rewrite H1 in H2. injection H2 as _ <- <-. auto.
Qed.

Lemma fetchFailed_false (result : FetchResult) :
  fetchFailed result = false ->
  exists status data,
    result = FetchResponse status (JsonValue data) /\
    response_ok status = true /\ incomplete data = false.
Proof.
  unfold fetchFailed. destruct result as [message|status body]; [discriminate|].
  destruct (response_ok status) eqn:Hok; [|discriminate].
  destruct body as [message|data]; [discriminate|].
  simpl. intros Hdata. exists status, data. auto.
Qed.

(** *** A property kept by every event

    What a property of worlds has to satisfy so that the event loop keeps
    it: one requirement for each way the controller changes the world. *)

Section Invariance.

Variable I : World -> Prop.

Hypothesis I_console : forall c w, I w -> I (set_console c w).
Hypothesis I_inflight : forall l w, I w -> I (set_inflight l w).
Hypothesis I_mode : forall m w, I w -> I (set_mode m w).
Hypothesis I_marked : forall w, I w -> I (marked w).
Hypothesis I_stored : forall n s w, I w -> I (stored n s w).
Hypothesis I_cancel : forall w, I w -> I (cancel w).
Hypothesis I_start : forall t X now w,
  I w -> is_Some (field w X) -> is_Some (field w (otherTarget X)) ->
  I (arm t X
       (ticked t X (countdownId X) now
          (paint (countdownId (otherTarget X)) PLACEHOLDER
                 (defaultColor (otherTarget X)) (cancel w)))).
Hypothesis I_tick : forall w id p t X now,
  I w -> timers w !! id = Some (Interval p t X) ->
  I (ticked t X (countdownId X) now w).
Hypothesis I_fired : forall w id d X,
  I w -> timers w !! id = Some (Timeout d X) ->
  I (set_timers (delete id (timers w)) w).

Lemma kept_by_handleApiError (message : string) (w : World) :
  I w -> I (exec (handleApiError message) w).
Proof.
  intros Hw. unfold exec.
  destruct (handleApiError_run message w) as [c ->].
  apply I_console, I_marked, Hw.
Qed.

Lemma kept_by_startCountdown (target : option Dayjs.t) (X : CountdownMode)
    (now : Z) (w : World) :
  I w -> I (exec (startCountdown target X now) w).
Proof.
  intros Hw. unfold exec. destruct target as [t|].
  - destruct (field w X) as [e|] eqn:He.
    + destruct (field w (otherTarget X)) as [o|] eqn:Ho.
      * rewrite startCountdown_run by (rewrite ?He, ?Ho; eauto).
        apply I_start; [exact Hw | rewrite He; eauto | rewrite Ho; eauto].
      * destruct (startCountdown_throw t X now w (or_intror Ho)) as [message ->].
        apply I_cancel, Hw.
    + destruct (startCountdown_throw t X now w (or_introl He)) as [message ->].
      apply I_cancel, Hw.
  - rewrite startCountdown_null. apply I_cancel, Hw.
Qed.

Lemma kept_by_fetchZmanim (forTomorrow : bool) (now : Z) (w : World) :
  I w -> I (exec (fetchZmanim forTomorrow now) w).
Proof. intros Hw. unfold exec, fetchZmanim, modify. apply I_inflight, Hw. Qed.

Lemma kept_by_fetchZmanim_try (req : Request) (result : FetchResult)
    (now now' : Z) (w : World) :
  I w -> I (exec (fetchZmanim_try req result now now') w).
Proof.
  intros Hw. unfold exec.
  destruct (fetchFailed result) eqn:Hfail.
  - destruct (fetchZmanim_try_failed req result now now' w Hfail) as [message ->].
    exact Hw.
  - destruct (fetchFailed_false result Hfail) as (status & data & -> & Hok & Hdata).
    destruct (fetchZmanim_try_complete req status data now now' w Hok Hdata) as [c ->].
    set (n := parseDateTime _). set (s := parseDateTime _).
    destruct (Num.gtb (Dayjs.diff n now) 0).
    + apply kept_by_startCountdown, I_mode, I_console, I_stored, Hw.
    + destruct (Num.gtb (Dayjs.diff s now) 0).
      * apply kept_by_startCountdown, I_mode, I_console, I_stored, Hw.
      * apply kept_by_fetchZmanim, I_mode, I_console, I_stored, Hw.
Qed.

Lemma kept_by_fetchZmanim_resume (req : Request) (result : FetchResult)
    (now now' : Z) (w : World) :
  I w ->
  I (exec (fetchZmanim_resume req result now now') w).
Proof.
  intros Hw. unfold exec, fetchZmanim_resume, try_catch.
  pose proof (kept_by_fetchZmanim_try req result now now' w Hw) as Htry.
  unfold exec in Htry.
  destruct (fetchZmanim_try req result now now' w)
    as [[[]|message] w1]; [exact Htry|].
  apply kept_by_handleApiError, Htry.
Qed.

Lemma kept_by_step (e : Event) (w : World) :
  I w -> I (step e w).
Proof.
  intros Hw. destruct e as [id now|i result now now']; unfold step, exec.
  - unfold timerFires, bind at 1, gets.
    destruct (timers w !! id) as [[p t X|d X]|] eqn:Hid.
    + rewrite tick_run. exact (I_tick w id p t X now Hw Hid).
    + unfold clearInterval, flipMode. rewrite !bind_modify.
      unfold bind, gets.
      apply kept_by_fetchZmanim, I_mode, (I_fired w id d X Hw Hid).
    + exact Hw.
  - unfold fetchSettles, bind at 1, gets.
    destruct (inflight w !! i) as [req|]; [|exact Hw].
    rewrite bind_modify.
    apply kept_by_fetchZmanim_resume, I_inflight, Hw.
Qed.

Lemma kept_when_reachable (page : gmap string Element) (firstTimer : Z) (w : World) :
  (0 < firstTimer -> I (initial page firstTimer)) ->
  reachable page firstTimer w -> I w.
Proof.
  intros Hinit Hreach. induction Hreach as [now Hpos|w e Hreach IH].
  - apply kept_by_fetchZmanim, Hinit, Hpos.
  - apply kept_by_step, IH.
Qed.

End Invariance.

(** *** The three invariants hold in every reachable world *)


Lemma Inv_initial (page : gmap string Element) (firstTimer : Z) :
  0 < firstTimer -> Inv (initial page firstTimer).
Proof.
  intros Hpos. unfold Inv, initial. cbn.
  split; [exact Hpos|]. split; [lia|].
  split; [|split]; intros *; rewrite lookup_empty; discriminate.
Qed.

Lemma Inv_start (t : Dayjs.t) (X : CountdownMode) (now : Z) (w : World) :
  Inv w -> is_Some (field w X) ->
  Inv (arm t X
         (ticked t X (countdownId X) now
            (paint (countdownId (otherTarget X)) PLACEHOLDER
                   (defaultColor (otherTarget X)) (cancel w)))).
Proof.
  intros Hw Hel.
  assert (Hp : Inv (paint (countdownId (otherTarget X)) PLACEHOLDER
                          (defaultColor (otherTarget X)) (cancel w)))
    by apply Inv_paint, Inv_cancel, Hw.
  apply Inv_arm.
  - apply Inv_ticked, Hp.
  - apply quiet_ticked; [exact Hp|].
    apply (quiet_frame (cancel w)); [reflexivity|]. apply quiet_cancel, Hw.
  - apply is_Some_field_ticked, is_Some_field_paint.
    rewrite cancel_field. exact Hel.
Qed.

Lemma Inv_fired (w : World) (id : Z) :
  Inv w -> Inv (set_timers (delete id (timers w)) w).
Proof.
  apply Inv_shrink; try reflexivity; [|auto].
  cbn [timers set_timers]. intros id' tm Hid.
  apply lookup_delete_Some in Hid as [_ Hid]. exact Hid.
Qed.

Lemma reachable_Inv (page : gmap string Element) (firstTimer : Z) (w : World) :
  reachable page firstTimer w -> Inv w.
Proof.
  apply kept_when_reachable.
  - intros c w0. apply Inv_frame; auto.
  - intros l w0. apply Inv_frame; auto.
  - intros m w0. apply Inv_frame; auto.
  - apply Inv_marked.
  - apply Inv_stored.
  - apply Inv_cancel.
  - intros t X now w0 Hw Hel _. apply Inv_start; assumption.
  - intros w0 id p t X now Hw _. apply Inv_ticked, Hw.
  - intros w0 id d X Hw _. apply Inv_fired, Hw.
  - apply Inv_initial.
Qed.

Lemma cancel_times (w : World) :
  netzTime (cancel w) = netzTime w /\ alotHashaharTime (cancel w) = alotHashaharTime w.
Proof. unfold cancel. destruct (Z.eqb (countdownInterval w) 0); split; reflexivity. Qed.

Lemma ticked_times (t : Dayjs.t) (X : CountdownMode) (el : string) (now : Z) (w : World) :
  netzTime (ticked t X el now w) = netzTime w /\
  alotHashaharTime (ticked t X el now w) = alotHashaharTime w.
Proof. unfold ticked. destruct (Num.leb (Dayjs.diff t now) 0); split; reflexivity. Qed.

Lemma dawnInv_frame (w w' : World) :
  netzTime w' = netzTime w -> alotHashaharTime w' = alotHashaharTime w ->
  dawnInv w -> dawnInv w'.
Proof. unfold dawnInv. intros -> ->. auto. Qed.

Lemma reachable_dawnInv (page : gmap string Element) (firstTimer : Z) (w : World) :
  reachable page firstTimer w -> dawnInv w.
Proof.
  apply kept_when_reachable.
  - intros c w0. apply dawnInv_frame; reflexivity.
  - intros l w0. apply dawnInv_frame; reflexivity.
  - intros m w0. apply dawnInv_frame; reflexivity.
  - intros w0. apply dawnInv_frame; reflexivity.
  - intros n s w0 _. reflexivity.
  - intros w0. apply dawnInv_frame; apply cancel_times.
  - intros t X now w0 Hw _ _.
    revert Hw. apply dawnInv_frame; cbn [netzTime alotHashaharTime arm
      set_countdownInterval set_nextTimer set_timers].
    + rewrite (proj1 (ticked_times _ _ _ _ _)). cbn. apply cancel_times.
    + rewrite (proj2 (ticked_times _ _ _ _ _)). cbn. apply cancel_times.
  - intros w0 id p t X now Hw _. revert Hw. apply dawnInv_frame; apply ticked_times.
  - intros w0 id d X Hw _. revert Hw. apply dawnInv_frame; reflexivity.
  - intros _. reflexivity.
Qed.

(** *** At most one field shows a countdown *)










(** *** Frame lemmas used by the claims *)

Lemma fetchZmanim_run (forTomorrow : bool) (now : Z) (w : World) :
  fetchZmanim forTomorrow now w =
  (Normal tt, set_inflight (inflight w ++ [requestFor forTomorrow now])%list w).
Proof. reflexivity. Qed.

Lemma cancel_rest (w : World) :
  netzTime (cancel w) = netzTime w /\
  sunsetTime (cancel w) = sunsetTime w /\
  alotHashaharTime (cancel w) = alotHashaharTime w /\
  mode (cancel w) = mode w /\
  inflight (cancel w) = inflight w /\
  console (cancel w) = console w.
Proof.
  unfold cancel. destruct (Z.eqb (countdownInterval w) 0); repeat split; reflexivity.
Qed.

Lemma ticked_rest (t : Dayjs.t) (X : CountdownMode) (el : string) (now : Z) (w : World) :
  netzTime (ticked t X el now w) = netzTime w /\
  sunsetTime (ticked t X el now w) = sunsetTime w /\
  alotHashaharTime (ticked t X el now w) = alotHashaharTime w /\
  mode (ticked t X el now w) = mode w /\
  inflight (ticked t X el now w) = inflight w /\
  countdownInterval (ticked t X el now w) = countdownInterval w /\
  console (ticked t X el now w) = console w.
Proof.
  unfold ticked. destruct (Num.leb (Dayjs.diff t now) 0); repeat split; reflexivity.
Qed.

Lemma fetchZmanim_resume_normal (req : Request) (result : FetchResult)
    (now now' : Z) (w : World) :
  outcome (fetchZmanim_resume req result now now') w = Normal tt.
Proof.
  unfold outcome, fetchZmanim_resume, try_catch.
  destruct (fetchZmanim_try req result now now' w) as [[[]|message] w1];
    [reflexivity|].
  destruct (handleApiError_run ("Échec de la récupération des Zmanim: " ++ message) w1)
    as [c ->].
  reflexivity.
Qed.

Lemma tick_field (t : Z) (X : CountdownMode) (now : Z) (w : World) :
  field (exec (tick (Dayjs.Instant t) X (countdownId X) now) w) X
  = (fun _ => mkElement (tickText (Some (t - now))) (tickColor X (Some (t - now))))
      <$> field w X.
Proof.
  unfold exec. rewrite tick_run. cbn [snd]. rewrite field_ticked.
  rewrite decide_True by reflexivity. reflexivity.
Qed.

Lemma tickColor_tier (X : CountdownMode) (remaining : Z) :
  tickColor X (Some remaining) = tierColor X (tierOf remaining).
Proof.
  unfold tickColor, tierColor, tierOf, Num.leb, Num.gtb.
  repeat match goal with
         | |- context [Z.leb ?a ?b] => destruct (Z.leb_spec a b)
         | |- context [Z.gtb ?a ?b] => rewrite (Z.gtb_ltb a b); destruct (Z.ltb_spec b a)
         end; try reflexivity; lia.
Qed.

Lemma tickText_running (remaining : Z) :
  0 < remaining ->
  tickText (Some remaining) =
  if Z.leb remaining (90 * 60 * 1000) then HHMMSS remaining else "--:--:--".
Proof.
  intros Hpos. unfold tickText, Num.leb, Num.gtb.
  destruct (Z.leb_spec remaining 0) as [Hle|_]; [lia|].
  rewrite Z.gtb_ltb.
  destruct (Z.ltb_spec (90 * 60 * 1000) remaining) as [Hgt|Hle];
    destruct (Z.leb_spec remaining (90 * 60 * 1000)) as [Hle'|Hgt']; try lia.
  - reflexivity.
  - apply timeStr_HHMMSS. lia.
Qed.

Lemma marked_lookup_other (k : string) (w : World) :
  ~ In k dependentFields -> document (marked w) !! k = document w !! k.
Proof.
  intros Hk. unfold marked, write. cbn [document set_document].
  rewrite !lookup_alter_ne; [reflexivity|..];
    intros <-; apply Hk; cbn; tauto.
Qed.

Lemma marked_lookup_field (k : string) (w : World) :
  In k dependentFields ->
  document (marked w) !! k = withText (errorMarker k) <$> document w !! k.
Proof.
  intros Hk. unfold marked, write. cbn [document set_document].
  cbn in Hk.
  destruct Hk as [<-|[<-|[<-|[<-|[<-|[]]]]]];
    repeat (rewrite lookup_alter_ne by discriminate);
    rewrite lookup_alter_eq;
    repeat (rewrite lookup_alter_ne by discriminate);
    reflexivity.
Qed.

(** The two ways a call of [startCountdown] can end: the interval is
    cancelled and nothing else happens (null target, or a missing element
    makes [getElement] throw), or the countdown is armed. *)
Lemma startCountdown_cases (target : option Dayjs.t) (X : CountdownMode)
    (now : Z) (w : World) :
  (exec (startCountdown target X now) w = cancel w /\
   (outcome (startCountdown target X now) w = Normal tt -> target = None)) \/
  (exists t, target = Some t /\
     is_Some (field w X) /\ is_Some (field w (otherTarget X)) /\
     startCountdown target X now w =
     (Normal tt,
      arm t X
        (ticked t X (countdownId X) now
           (paint (countdownId (otherTarget X)) PLACEHOLDER
                  (defaultColor (otherTarget X)) (cancel w))))).
Proof.
  unfold exec, outcome. destruct target as [t|].
  - destruct (field w X) as [e|] eqn:He.
    + destruct (field w (otherTarget X)) as [o|] eqn:Ho.
      * right. exists t.
        assert (Hx : is_Some (field w X)) by (rewrite He; eauto).
        assert (Hy : is_Some (field w (otherTarget X))) by (rewrite Ho; eauto).
        rewrite (startCountdown_run t X now w Hx Hy). auto.
      * left. destruct (startCountdown_throw t X now w (or_intror Ho)) as [message ->].
        split; [reflexivity | discriminate].
    + left. destruct (startCountdown_throw t X now w (or_introl He)) as [message ->].
      split; [reflexivity | discriminate].
  - left. rewrite startCountdown_null. auto.
Qed.

Lemma startCountdown_times (target : option Dayjs.t) (X : CountdownMode)
    (now : Z) (w : World) :
  netzTime (exec (startCountdown target X now) w) = netzTime w /\
  sunsetTime (exec (startCountdown target X now) w) = sunsetTime w /\
  alotHashaharTime (exec (startCountdown target X now) w) = alotHashaharTime w.
Proof.
  destruct (startCountdown_cases target X now w)
    as [[-> _]|(t & _ & _ & _ & Hrun)].
  - destruct (cancel_rest w) as (Hn & Hs & Ha & _). auto.
  - unfold exec. rewrite Hrun. cbn [snd].
    cbn [netzTime sunsetTime alotHashaharTime arm set_countdownInterval
         set_nextTimer set_timers].
    destruct (ticked_rest t X (countdownId X) now
                (paint (countdownId (otherTarget X)) PLACEHOLDER
                       (defaultColor (otherTarget X)) (cancel w)))
      as (-> & -> & -> & _).
    destruct (cancel_rest w) as (Hn & Hs & Ha & _). auto.
Qed.

Lemma fetchZmanim_resume_complete_times (req : Request) (status : Z)
    (data : option Api.ZmanimData) (now now' : Z) (w : World) :
  response_ok status = true ->
  incomplete data = false ->
  let w' := exec (fetchZmanim_resume req (FetchResponse status (JsonValue data))
                    now now') w in
  let n := parseDateTime (date req ++ " " ++ textOf (Api.sunrise (resultsOf data))) in
  let s := parseDateTime (date req ++ " " ++ textOf (Api.sunset (resultsOf data))) in
  netzTime w' = Some n /\ sunsetTime w' = Some s /\
  alotHashaharTime w' = Some (calculateAlotHashahar n).
Proof.
  intros Hok Hdata. cbv zeta.
  unfold exec, fetchZmanim_resume, try_catch.
  destruct (fetchZmanim_try_complete req status data now now' w Hok Hdata) as [c ->].
  set (n := parseDateTime _). set (s := parseDateTime _).
  set (w1 := set_mode _ _).
  assert (Hw1 : netzTime w1 = Some n /\ sunsetTime w1 = Some s /\
                alotHashaharTime w1 = Some (calculateAlotHashahar n))
    by (repeat split).
  assert (Hstart : forall t X,
             let r := startCountdown (Some t) X now' w1 in
             netzTime (snd match r with
                           | (Normal a, w2) => (Normal a, w2)
                           | (Throw e, w2) =>
                               handleApiError
                                 ("Échec de la récupération des Zmanim: " ++ e) w2
                           end) = Some n /\
             sunsetTime (snd match r with
                           | (Normal a, w2) => (Normal a, w2)
                           | (Throw e, w2) =>
                               handleApiError
                                 ("Échec de la récupération des Zmanim: " ++ e) w2
                           end) = Some s /\
             alotHashaharTime (snd match r with
                           | (Normal a, w2) => (Normal a, w2)
                           | (Throw e, w2) =>
                               handleApiError
                                 ("Échec de la récupération des Zmanim: " ++ e) w2
                           end) = Some (calculateAlotHashahar n)).
  { intros t X. cbv zeta.
    pose proof (startCountdown_times (Some t) X now' w1) as Htimes.
    unfold exec in Htimes.
    destruct (startCountdown (Some t) X now' w1) as [[[]|message] w2]; cbn [snd] in *.
    - destruct Htimes as (-> & -> & ->). exact Hw1.
    - destruct (handleApiError_run
                  ("Échec de la récupération des Zmanim: " ++ message) w2) as [c' ->].
      cbn [snd]. unfold marked, write. cbn.
      destruct Htimes as (-> & -> & ->). exact Hw1. }
  destruct (Num.gtb (Dayjs.diff n now) 0); [apply Hstart|].
  destruct (Num.gtb (Dayjs.diff s now) 0); [apply Hstart|].
  rewrite fetchZmanim_run. cbn [snd]. exact Hw1.
Qed.

(** The world in which [startCountdown] has armed a countdown. *)
Lemma armed_world (t : Dayjs.t) (X : CountdownMode) (now : Z) (w : World) :
  let w' := arm t X
              (ticked t X (countdownId X) now
                 (paint (countdownId (otherTarget X)) PLACEHOLDER
                        (defaultColor (otherTarget X)) (cancel w))) in
  mode w' = mode w /\
  inflight w' = inflight w /\
  timers w' !! countdownInterval w' = Some (Interval 1000 t X) /\
  field w' (otherTarget X)
    = (fun _ => mkElement PLACEHOLDER (defaultColor (otherTarget X)))
        <$> field w (otherTarget X) /\
  field w' X
    = (fun _ => mkElement (tickText (Dayjs.diff t now)) (tickColor X (Dayjs.diff t now)))
        <$> field w X.
Proof.
  cbv zeta.
  set (w0 := paint (countdownId (otherTarget X)) PLACEHOLDER
                   (defaultColor (otherTarget X)) (cancel w)).
  destruct (ticked_rest t X (countdownId X) now w0) as (_ & _ & _ & Hm & Hi & _).
  destruct (cancel_rest w) as (_ & _ & _ & Hm' & Hi' & _).
  split; [cbn [mode arm set_countdownInterval set_nextTimer set_timers];
          rewrite Hm; exact Hm'|].
  split; [cbn [inflight arm set_countdownInterval set_nextTimer set_timers];
          rewrite Hi; exact Hi'|].
  split; [unfold arm; cbn [timers countdownInterval set_countdownInterval
                            set_nextTimer set_timers]; apply lookup_insert_eq|].
  assert (Harm : forall Y, field (arm t X (ticked t X (countdownId X) now w0)) Y
                           = field (ticked t X (countdownId X) now w0) Y)
    by reflexivity.
  rewrite !Harm, !field_ticked. unfold w0. rewrite !field_paint, !cancel_field.
  split.
  - rewrite decide_False by (intros Heq; symmetry in Heq;
                             exact (countdownId_other X Heq)).
    rewrite decide_True by reflexivity. reflexivity.
  - rewrite decide_True by reflexivity.
    rewrite decide_False by apply countdownId_other. reflexivity.
Qed.

Lemma is_Some_field_stored (n s : Dayjs.t) (w : World) (X : CountdownMode) :
  is_Some (field w X) -> is_Some (field (stored n s w) X).
Proof.
  intros Hel. unfold stored. repeat apply is_Some_field_write. exact Hel.
Qed.

(** The world after a refresh that got a complete, readable answer on a
    page with both countdown fields. *)
Lemma fetchZmanim_resume_complete (req : Request) (status : Z)
    (data : option Api.ZmanimData) (now now' : Z) (w : World) (n s : Z) :
  response_ok status = true ->
  incomplete data = false ->
  parseDateTime (date req ++ " " ++ textOf (Api.sunrise (resultsOf data)))
    = Dayjs.Instant n ->
  parseDateTime (date req ++ " " ++ textOf (Api.sunset (resultsOf data)))
    = Dayjs.Instant s ->
  is_Some (field w netz) ->
  is_Some (field w sunset) ->
  exists c,
    let w1 := fun m => set_mode m (set_console c
                         (stored (Dayjs.Instant n) (Dayjs.Instant s) w)) in
    exec (fetchZmanim_resume req (FetchResponse status (JsonValue data)) now now') w =
    if Z.ltb 0 (n - now) then
      arm (Dayjs.Instant n) netz
        (ticked (Dayjs.Instant n) netz (countdownId netz) now'
           (paint (countdownId sunset) PLACEHOLDER "orange" (cancel (w1 netz))))
    else if Z.ltb 0 (s - now) then
      arm (Dayjs.Instant s) sunset
        (ticked (Dayjs.Instant s) sunset (countdownId sunset) now'
           (paint (countdownId netz) PLACEHOLDER "blue" (cancel (w1 sunset))))
    else
      set_inflight (inflight w ++ [requestFor true now'])%list (w1 netz).
Proof.
  intros Hok Hdata Hn Hs Hnetz Hsunset.
  unfold exec, fetchZmanim_resume, try_catch.
  destruct (fetchZmanim_try_complete req status data now now' w Hok Hdata) as [c ->].
  exists c. cbv zeta.
  rewrite Hn, Hs. unfold Dayjs.diff, Num.gtb.
  assert (Hfields : forall m X, is_Some (field w X) ->
            is_Some (field (set_mode m (set_console c
                       (stored (Dayjs.Instant n) (Dayjs.Instant s) w))) X)).
  { intros m X Hel. apply (is_Some_field_stored (Dayjs.Instant n) (Dayjs.Instant s)) in Hel.
    exact Hel. }
  rewrite !Z.gtb_ltb.
  destruct (Z.ltb 0 (n - now)).
  - rewrite startCountdown_run by (apply Hfields; assumption). reflexivity.
  - destruct (Z.ltb 0 (s - now)).
    + rewrite startCountdown_run by (apply Hfields; assumption). reflexivity.
    + rewrite fetchZmanim_run. reflexivity.
Qed.

Lemma Inv_startCountdown (target : option Dayjs.t) (X : CountdownMode)
    (now : Z) (w : World) :
  Inv w -> Inv (exec (startCountdown target X now) w).
Proof.
  intros Hw.
  destruct (startCountdown_cases target X now w)
    as [[-> _]|(t & _ & Hel & _ & Hrun)].
  - apply Inv_cancel, Hw.
  - unfold exec. rewrite Hrun. apply Inv_start; assumption.
Qed.

Lemma ticked_timers_old (t : Dayjs.t) (X : CountdownMode) (el : string) (now : Z)
    (w : World) (id : Z) (tm : Timer) :
  timers (ticked t X el now w) !! id = Some tm ->
  id = nextTimer w \/ timers w !! id = Some tm.
Proof.
  unfold ticked. destruct (Num.leb (Dayjs.diff t now) 0).
  - unfold expire. cbn [timers nextTimer countdownInterval set_timers set_nextTimer
                        paint set_document].
    intros Hid. apply lookup_insert_Some in Hid as [[<- _]|[_ Hid]]; [auto|].
    apply lookup_delete_Some in Hid as [_ Hid]. auto.
  - auto.
Qed.

Lemma ticked_nextTimer (t : Dayjs.t) (X : CountdownMode) (el : string) (now : Z)
    (w : World) :
  nextTimer w <= nextTimer (ticked t X el now w).
Proof.
  unfold ticked. destruct (Num.leb (Dayjs.diff t now) 0); cbn; lia.
Qed.

Lemma startCountdown_drops_interval (target : option Dayjs.t) (X : CountdownMode)
    (now : Z) (w : World) (id p : Z) (t : Dayjs.t) (Y : CountdownMode) :
  Inv w ->
  timers w !! id = Some (Interval p t Y) ->
  timers (exec (startCountdown target X now) w) !! id = None.
Proof.
  intros Hw Hid.
  pose proof Hw as (Hpos & Hci & Hids & Hint & Hto).
  destruct (Hint id p t Y Hid) as (Hid_ci & _).
  pose proof (Hids id _ Hid) as Hrange.
  assert (Hgone : timers (cancel w) !! id = None).
  { destruct (timers (cancel w) !! id) as [tm|] eqn:Hc; [|reflexivity].
    apply cancel_timers in Hc as [_ Hne]. exfalso. apply Hne; lia. }
  destruct (startCountdown_cases target X now w)
    as [[-> _]|(t' & _ & _ & _ & Hrun)]; [exact Hgone|].
  unfold exec. rewrite Hrun. cbn [snd].
  unfold arm. cbn [timers set_timers set_nextTimer set_countdownInterval].
  set (w0 := paint (countdownId (otherTarget X)) PLACEHOLDER
                   (defaultColor (otherTarget X)) (cancel w)).
  pose proof (ticked_nextTimer t' X (countdownId X) now w0) as Hnext.
  assert (Hn0 : nextTimer w0 = nextTimer w) by apply cancel_nextTimer.
  rewrite lookup_insert_ne by lia.
  destruct (timers (ticked t' X (countdownId X) now w0) !! id) as [tm|] eqn:Ht;
    [|reflexivity].
  apply ticked_timers_old in Ht as [Heq|Hold]; [lia|].
  change (timers w0) with (timers (cancel w)) in Hold. congruence.
Qed.

(** *** A scheduled mode flip stays pending until it fires *)

Lemma cancel_keeps_timeout (w : World) (k d : Z) (X : CountdownMode) :
  Inv w -> timers w !! k = Some (Timeout d X) ->
  timers (cancel w) !! k = Some (Timeout d X).
Proof.
  intros (_ & _ & _ & _ & Hto) Hk. unfold cancel.
  destruct (Z.eqb (countdownInterval w) 0); [exact Hk|].
  cbn [timers set_timers]. rewrite lookup_delete_ne; [exact Hk|].
  intros Heq. rewrite Heq in Hto. exact (Hto d X Hk).
Qed.

Lemma ticked_keeps_timeout (t : Dayjs.t) (Y : CountdownMode) (el : string) (now : Z)
    (w : World) (k d : Z) (X : CountdownMode) :
  Inv w -> timers w !! k = Some (Timeout d X) ->
  timers (ticked t Y el now w) !! k = Some (Timeout d X).
Proof.
  intros (_ & _ & Hids & _ & Hto) Hk. unfold ticked.
  destruct (Num.leb (Dayjs.diff t now) 0); [|exact Hk].
  unfold expire. cbn [timers nextTimer countdownInterval set_timers set_nextTimer
                      paint set_document].
  pose proof (Hids k _ Hk) as Hrange.
  rewrite lookup_insert_ne by lia.
  rewrite lookup_delete_ne; [exact Hk|].
  intros Heq. rewrite Heq in Hto. exact (Hto d X Hk).
Qed.

Lemma timeout_survives_resume (req : Request) (result : FetchResult) (now now' : Z)
    (w : World) (k d : Z) (X : CountdownMode) :
  Inv w -> timers w !! k = Some (Timeout d X) ->
  timers (exec (fetchZmanim_resume req result now now') w) !! k = Some (Timeout d X).
Proof.
  intros Hw Hk.
  apply (kept_by_fetchZmanim_resume
           (fun w0 => Inv w0 /\ timers w0 !! k = Some (Timeout d X))); [..|auto].
  - intros c w0 [H0 K0]. split; [revert H0; apply Inv_frame; auto | exact K0].
  - intros l w0 [H0 K0]. split; [revert H0; apply Inv_frame; auto | exact K0].
  - intros m w0 [H0 K0]. split; [revert H0; apply Inv_frame; auto | exact K0].
  - intros w0 [H0 K0]. split; [apply Inv_marked, H0 | exact K0].
  - intros n s w0 [H0 K0]. split; [apply Inv_stored, H0 | exact K0].
  - intros w0 [H0 K0]. split; [apply Inv_cancel, H0 | apply cancel_keeps_timeout; assumption].
  - intros t Y now0 w0 [H0 K0] Hel _. split; [apply Inv_start; assumption|].
    set (w1 := paint (countdownId (otherTarget Y)) PLACEHOLDER
                     (defaultColor (otherTarget Y)) (cancel w0)).
    assert (H1 : Inv w1) by apply Inv_paint, Inv_cancel, H0.
    assert (K1 : timers w1 !! k = Some (Timeout d X))
      by (apply (cancel_keeps_timeout w0); assumption).
    pose proof (ticked_keeps_timeout t Y (countdownId Y) now0 w1 k d X H1 K1) as K2.
    pose proof (Inv_ticked t Y (countdownId Y) now0 w1 H1) as (_ & _ & Hids & _).
    pose proof (Hids k _ K2) as Hrange.
    unfold arm. cbn [timers set_timers set_nextTimer set_countdownInterval].
    rewrite lookup_insert_ne by lia. exact K2.
Qed.

Lemma timeout_survives_step (e : Event) (w : World) (k d : Z) (X : CountdownMode) :
  Inv w -> timers w !! k = Some (Timeout d X) ->
  (forall now, e <> TimerFires k now) ->
  timers (step e w) !! k = Some (Timeout d X).
Proof.
  intros Hw Hk Hother. destruct e as [id now|i result now now']; unfold step, exec.
  - unfold timerFires, bind at 1, gets.
    destruct (timers w !! id) as [[p t Y|d' Y]|] eqn:Hid.
    + rewrite tick_run. apply ticked_keeps_timeout; assumption.
    + unfold clearInterval, flipMode. rewrite !bind_modify.
      unfold bind, gets. rewrite fetchZmanim_run. cbn [snd timers set_timers set_mode
                                                        set_inflight].
      rewrite lookup_delete_ne; [exact Hk|].
      intros ->. exact (Hother now eq_refl).
    + exact Hk.
  - unfold fetchSettles, bind at 1, gets.
    destruct (inflight w !! i) as [req|]; [|exact Hk].
    rewrite bind_modify.
    apply timeout_survives_resume; [|exact Hk].
    revert Hw. apply Inv_frame; auto.
Qed.

(** The first [tick] of [startCountdown] runs before [setInterval]: when
    it already finds the target reached, its [clearInterval] has nothing
    to clear and the interval is armed all the same, next to the scheduled
    mode flip. The interval's own first tick then stops it. *)
Remark immediate_expired_tick_leaves_interval (t : Z) (X : CountdownMode)
    (now : Z) (w : World) :
  is_Some (field w X) ->
  is_Some (field w (otherTarget X)) ->
  t - now <= 0 ->
  let w' := exec (startCountdown (Some (Dayjs.Instant t)) X now) w in
  timers w' !! nextTimer w = Some (Timeout 5000 X) /\
  timers w' !! countdownInterval w' = Some (Interval 1000 (Dayjs.Instant t) X).
Proof.
  intros Hx Ho Hle w'.
  assert (Hw' : w' = arm (Dayjs.Instant t) X
                       (expire X
                          (paint (countdownId X) TIME_PASSED "red"
                             (paint (countdownId (otherTarget X)) PLACEHOLDER
                                    (defaultColor (otherTarget X)) (cancel w))))).
  { unfold w', exec. rewrite startCountdown_run by assumption. cbn [snd].
    unfold ticked, Dayjs.diff, Num.leb.
    destruct (Z.leb_spec (t - now) 0); [reflexivity|lia]. }
  clearbody w'. subst w'.
  unfold arm, expire.
  cbn [timers nextTimer countdownInterval set_timers set_nextTimer
       set_countdownInterval paint set_document].
  rewrite cancel_nextTimer. split.
  - rewrite lookup_insert_ne by lia. apply lookup_insert_eq.
  - apply lookup_insert_eq.
Qed.

(** ** The claims *)

(** C3: after a tick of the countdown toward [t] at clock reading [now],
    the color of the countdown field depends only on the remaining time
    [t - now] and on the target: at most 120000 ms is the critical tier
    (red), above that and at most 300000 ms the warning tier (orange),
    anything larger the default tier, which is blue for the sunrise target
    and orange for the sunset target. *)
Theorem tick_color_by_tier (t : Z) (X : CountdownMode) (now : Z) (w : World) (e : Element) :
  field w X = Some e ->
  exists e',
    field (exec (tick (Dayjs.Instant t) X (countdownId X) now) w) X = Some e' /\
    color e' =
      match tierOf (t - now) with
      | Critical => "red"
      | Warning => "orange"
      | DefaultTier => match X with netz => "blue" | sunset => "orange" end
      end /\
    (t - now <= 120000 -> color e' = "red") /\
    (120000 < t - now <= 300000 -> color e' = "orange") /\
    (300000 < t - now ->
     (X = netz -> color e' = "blue") /\ (X = sunset -> color e' = "orange")).
Proof.
  intros Hfield. rewrite tick_field, Hfield.
  eexists. split; [reflexivity|]. cbn [color].
  rewrite tickColor_tier. unfold tierColor, tierOf.
  destruct (Z.leb_spec (t - now) 120000) as [Hcrit|Hcrit];
    [|destruct (Z.leb_spec (t - now) 300000) as [Hwarn|Hwarn]].
  - repeat split; try reflexivity; intros; lia.
  - repeat split; try reflexivity; intros; lia.
  - destruct X; repeat split; try reflexivity; intros; try lia; discriminate.
Qed.

(** C4: a tick with time left writes [HH:MM:SS], each field on two digits,
    while at most 90 minutes remain (61000 ms gives 00:01:01), and the
    placeholder when more than 90 minutes remain. *)
Theorem tick_text_rendering (t : Z) (X : CountdownMode) (now : Z) (w : World) (e : Element) :
  field w X = Some e ->
  0 < t - now ->
  exists e',
    field (exec (tick (Dayjs.Instant t) X (countdownId X) now) w) X = Some e' /\
    textContent e' =
      (if Z.leb (t - now) (90 * 60 * 1000) then HHMMSS (t - now) else "--:--:--") /\
    (t - now = 61000 -> textContent e' = "00:01:01").
Proof.
  intros Hfield Hpos. rewrite tick_field, Hfield.
  eexists. split; [reflexivity|]. cbn [textContent].
  split; [apply tickText_running, Hpos|].
  intros H61. rewrite tickText_running, H61 by exact Hpos. reflexivity.
Qed.

(** C10: for the sunset target the warning color is the default color,
    so the field is orange just below and just above the five-minute
    threshold; for the sunrise target the two differ (orange against
    blue). *)
Theorem warning_tier_visible_only_for_netz (t now1 now2 : Z) (w : World) :
  120000 < t - now1 <= 300000 ->
  300000 < t - now2 ->
  (forall e, field w sunset = Some e ->
     color <$> field (exec (tick (Dayjs.Instant t) sunset (countdownId sunset) now1) w) sunset
       = Some "orange" /\
     color <$> field (exec (tick (Dayjs.Instant t) sunset (countdownId sunset) now2) w) sunset
       = Some "orange") /\
  (forall e, field w netz = Some e ->
     color <$> field (exec (tick (Dayjs.Instant t) netz (countdownId netz) now1) w) netz
       = Some "orange" /\
     color <$> field (exec (tick (Dayjs.Instant t) netz (countdownId netz) now2) w) netz
       = Some "blue").
Proof.
  intros Hwarn Hdefault.
  assert (Hw : tierOf (t - now1) = Warning).
  { unfold tierOf.
    destruct (Z.leb_spec (t - now1) 120000); [lia|].
    destruct (Z.leb_spec (t - now1) 300000); [reflexivity|lia]. }
  assert (Hd : tierOf (t - now2) = DefaultTier).
  { unfold tierOf.
    destruct (Z.leb_spec (t - now2) 120000); [lia|].
    destruct (Z.leb_spec (t - now2) 300000); [lia|reflexivity]. }
  split; intros e Hfield; rewrite !tick_field, Hfield; cbn [fmap option_fmap option_map color];
    rewrite !tickColor_tier, Hw, Hd; split; reflexivity.
Qed.

(** C9: [startCountdown(null, targetId)] completes normally; it clears the
    interval named by [countdownInterval] when that handle is set, arms
    no timer and leaves every element (and every variable) as it was, so
    the other target's field is not reset. In a reachable world no
    countdown interval is alive afterwards. *)
Theorem startCountdown_null_only_cancels (X : CountdownMode) (now : Z) (w : World) :
  let w' := exec (startCountdown None X now) w in
  outcome (startCountdown None X now) w = Normal tt /\
  document w' = document w /\
  timers w' = (if Z.eqb (countdownInterval w) 0 then timers w
               else delete (countdownInterval w) (timers w)) /\
  nextTimer w' = nextTimer w /\
  countdownInterval w' = countdownInterval w /\
  mode w' = mode w /\
  netzTime w' = netzTime w /\ sunsetTime w' = sunsetTime w /\
  alotHashaharTime w' = alotHashaharTime w /\
  inflight w' = inflight w /\
  (forall page firstTimer, reachable page firstTimer w -> quiet w').
Proof.
  unfold exec, outcome. rewrite startCountdown_null. cbn [fst snd].
  split; [reflexivity|].
  split; [apply cancel_document|].
  split; [unfold cancel; destruct (Z.eqb (countdownInterval w) 0); reflexivity|].
  split; [apply cancel_nextTimer|].
  split; [apply cancel_countdownInterval|].
  destruct (cancel_rest w) as (Hn & Hs & Ha & Hm & Hi & _).
  repeat (split; [assumption|]).
  intros page firstTimer Hreach. apply quiet_cancel.
  apply (reachable_Inv page firstTimer), Hreach.
Qed.

(** C5: when the request is rejected, the status is not 2xx, the body is
    not JSON or [results.sunrise] / [results.sunset] is missing, the
    resumed [fetchZmanim] completes normally (nothing is thrown to the
    caller); each of the five dependent fields the page has shows its error
    marker and no other element changes; no timer is armed or cleared, no
    new request is sent, and the mode and the stored times stay. *)
Theorem fetch_failure_shows_error_markers (req : Request) (result : FetchResult)
    (now now' : Z) (w : World) :
  fetchFailed result = true ->
  let w' := exec (fetchZmanim_resume req result now now') w in
  outcome (fetchZmanim_resume req result now now') w = Normal tt /\
  (forall k, In k dependentFields ->
     document w' !! k = withText (errorMarker k) <$> document w !! k) /\
  (forall k, ~ In k dependentFields -> document w' !! k = document w !! k) /\
  timers w' = timers w /\
  nextTimer w' = nextTimer w /\
  countdownInterval w' = countdownInterval w /\
  inflight w' = inflight w /\
  mode w' = mode w /\
  netzTime w' = netzTime w /\ sunsetTime w' = sunsetTime w /\
  alotHashaharTime w' = alotHashaharTime w.
Proof.
  intros Hfail. cbv zeta.
  split; [apply fetchZmanim_resume_normal|].
  unfold exec.
  destruct (fetchZmanim_resume_failed req result now now' w Hfail) as [c ->].
  cbn [snd].
  split; [intros k Hk; apply (marked_lookup_field k w Hk)|].
  split; [intros k Hk; apply (marked_lookup_other k w Hk)|].
  repeat split.
Qed.

(** C8: [calculateAlotHashahar] moves a valid sunrise back by exactly 72
    minutes; a refresh that gets a complete answer stores the dawn computed
    from the sunrise it stores, and in every reachable world the stored
    dawn is the stored sunrise moved by [calculateAlotHashahar]; a sunrise
    at 6:12 wall-clock time gives a dawn shown as 5:00. *)
Theorem dawn_is_sunrise_minus_72_minutes (page : gmap string Element) (firstTimer : Z)
    (w : World) (t : Z) :
  reachable page firstTimer w ->
  calculateAlotHashahar (Dayjs.Instant t) = Dayjs.Instant (t - 72 * 60 * 1000) /\
  alotHashaharTime w = calculateAlotHashahar <$> netzTime w /\
  (forall req status data now now',
      response_ok status = true -> incomplete data = false ->
      let w' := exec (fetchZmanim_resume req (FetchResponse status (JsonValue data))
                        now now') w in
      let n := parseDateTime (date req ++ " " ++ textOf (Api.sunrise (resultsOf data))) in
      netzTime w' = Some n /\ alotHashaharTime w' = Some (calculateAlotHashahar n)) /\
  (Dayjs.hourOfDay (utcOffset t) t = 6 ->
   Dayjs.minuteOfHour (utcOffset t) t = 12 ->
   utcOffset (t - 72 * 60 * 1000) = utcOffset t ->
   Dayjs.format_Hmm utcOffset (Dayjs.Instant t) = "6:12" /\
   Dayjs.format_Hmm utcOffset (calculateAlotHashahar (Dayjs.Instant t)) = "5:00").
Proof.
  intros Hreach.
  split; [unfold calculateAlotHashahar, Dayjs.subtract_minutes; f_equal; lia|].
  split; [exact (reachable_dawnInv page firstTimer w Hreach)|].
  split.
  - intros req status data now now' Hok Hdata.
    destruct (fetchZmanim_resume_complete_times req status data now now' w Hok Hdata)
      as (Hn & _ & Ha).
    split; assumption.
  - intros Hh Hm Hoff.
    unfold calculateAlotHashahar, Dayjs.subtract_minutes, Dayjs.format_Hmm.
    replace (72 * 60 * 1000) with (72 * 60000) in Hoff by reflexivity.
    rewrite Hoff, Hh, Hm.
    assert (Hh' : Dayjs.hourOfDay (utcOffset t) (t - 72 * 60000) = 5).
    { unfold Dayjs.hourOfDay, Dayjs.minuteOfHour in *.
      Z.div_mod_to_equations. lia. }
    assert (Hm' : Dayjs.minuteOfHour (utcOffset t) (t - 72 * 60000) = 0).
    { unfold Dayjs.hourOfDay, Dayjs.minuteOfHour in *.
      Z.div_mod_to_equations. lia. }
    rewrite Hh', Hm'. split; reflexivity.
Qed.

(** C1: a refresh that gets a complete answer with readable sunrise [n]
    and sunset [s], on a page that has both countdown fields, stores the
    two times and then: with sunrise still ahead the mode is netz and the
    interval named by [countdownInterval] counts down to the sunrise;
    otherwise with sunset still ahead the mode is sunset and the interval
    counts down to the sunset; otherwise the mode is netz, no timer is
    armed or cleared and one request for tomorrow's data is sent. *)
Theorem fetchZmanim_chooses_countdown (req : Request) (status : Z)
    (data : option Api.ZmanimData) (now now' : Z) (w : World) (n s : Z) :
  response_ok status = true ->
  incomplete data = false ->
  parseDateTime (date req ++ " " ++ textOf (Api.sunrise (resultsOf data)))
    = Dayjs.Instant n ->
  parseDateTime (date req ++ " " ++ textOf (Api.sunset (resultsOf data)))
    = Dayjs.Instant s ->
  is_Some (field w netz) ->
  is_Some (field w sunset) ->
  let w' := exec (fetchZmanim_resume req (FetchResponse status (JsonValue data))
                    now now') w in
  netzTime w' = Some (Dayjs.Instant n) /\
  sunsetTime w' = Some (Dayjs.Instant s) /\
  (0 < n - now ->
     mode w' = netz /\
     timers w' !! countdownInterval w' = Some (Interval 1000 (Dayjs.Instant n) netz) /\
     textContent <$> field w' netz = Some (tickText (Some (n - now'))) /\
     inflight w' = inflight w) /\
  (n - now <= 0 -> 0 < s - now ->
     mode w' = sunset /\
     timers w' !! countdownInterval w' = Some (Interval 1000 (Dayjs.Instant s) sunset) /\
     textContent <$> field w' sunset = Some (tickText (Some (s - now'))) /\
     inflight w' = inflight w) /\
  (n - now <= 0 -> s - now <= 0 ->
     mode w' = netz /\
     timers w' = timers w /\
     nextTimer w' = nextTimer w /\
     countdownInterval w' = countdownInterval w /\
     inflight w' = (inflight w ++ [requestFor true now'])%list /\
     forTomorrow (requestFor true now') = true /\
     date (requestFor true now') = formatDate now' 1).
Proof.
  intros Hok Hdata Hn Hs Hnetz Hsunset w'.
  pose proof (fetchZmanim_resume_complete_times req status data now now' w Hok Hdata)
    as Htimes.
  cbv zeta in Htimes. rewrite Hn, Hs in Htimes. destruct Htimes as (Tn & Ts & _).
  split; [exact Tn|]. split; [exact Ts|]. clear Tn Ts.
  destruct (fetchZmanim_resume_complete req status data now now' w n s
              Hok Hdata Hn Hs Hnetz Hsunset) as [c Hw'].
  cbv zeta in Hw'. fold w' in Hw'. clearbody w'. subst w'.
  assert (Hfields : forall m X, is_Some (field w X) ->
            is_Some (field (set_mode m (set_console c
                       (stored (Dayjs.Instant n) (Dayjs.Instant s) w))) X)).
  { intros m X Hel. apply (is_Some_field_stored (Dayjs.Instant n) (Dayjs.Instant s)) in Hel.
    exact Hel. }
  destruct (Z.ltb_spec 0 (n - now)) as [Hnpos|Hnle].
  - split; [|split; [intros; lia|intros; lia]].
    intros _.
    destruct (armed_world (Dayjs.Instant n) netz now'
                (set_mode netz (set_console c
                   (stored (Dayjs.Instant n) (Dayjs.Instant s) w))))
      as (Hm & Hi & Ht & _ & Hf).
    cbv zeta in Hm, Hi, Ht, Hf. cbn [otherTarget defaultColor] in Hm, Hi, Ht, Hf.
    rewrite Hm, Ht, Hi, Hf.
    destruct (Hfields netz netz Hnetz) as [e ->].
    repeat split.
  - destruct (Z.ltb_spec 0 (s - now)) as [Hspos|Hsle].
    + split; [intros; lia|]. split; [|intros; lia].
      intros _ _.
      destruct (armed_world (Dayjs.Instant s) sunset now'
                  (set_mode sunset (set_console c
                     (stored (Dayjs.Instant n) (Dayjs.Instant s) w))))
        as (Hm & Hi & Ht & _ & Hf).
      cbv zeta in Hm, Hi, Ht, Hf. cbn [otherTarget defaultColor] in Hm, Hi, Ht, Hf.
      rewrite Hm, Ht, Hi, Hf.
      destruct (Hfields sunset sunset Hsunset) as [e ->].
      repeat split.
    + split; [intros; lia|]. split; [intros; lia|].
      intros _ _. repeat split.
Qed.

(** C2: when the interval of a reachable world fires and finds its target
    reached or passed, the tick writes the time-passed marker (in red) in
    its field, leaves no countdown interval alive and schedules one
    timeout of 5000 ms; no other event removes that timeout, and when it
    fires, the mode becomes the other target and a request is sent, for
    tomorrow exactly when the new mode is netz, that is, when the expired
    countdown was the one toward sunset. *)
Theorem expired_tick_flips_mode (page : gmap string Element) (firstTimer : Z)
    (w : World) (id p : Z) (target : Dayjs.t) (X : CountdownMode) (now d : Z) :
  reachable page firstTimer w ->
  timers w !! id = Some (Interval p target X) ->
  Dayjs.diff target now = Some d ->
  d <= 0 ->
  let w' := step (TimerFires id now) w in
  field w' X = Some (mkElement TIME_PASSED "red") /\
  quiet w' /\
  timers w' !! nextTimer w = Some (Timeout 5000 X) /\
  mode w' = mode w /\
  inflight w' = inflight w /\
  (forall w2,
     reachable page firstTimer w2 ->
     timers w2 !! nextTimer w = Some (Timeout 5000 X) ->
     (forall e, (forall now2, e <> TimerFires (nextTimer w) now2) ->
        timers (step e w2) !! nextTimer w = Some (Timeout 5000 X)) /\
     (forall now2,
        let w3 := step (TimerFires (nextTimer w) now2) w2 in
        mode w3 = otherTarget X /\
        timers w3 = delete (nextTimer w) (timers w2) /\
        inflight w3 = (inflight w2 ++ [requestFor (isNetz (otherTarget X)) now2])%list /\
        forTomorrow (requestFor (isNetz (otherTarget X)) now2)
          = match X with sunset => true | netz => false end /\
        date (requestFor (isNetz (otherTarget X)) now2)
          = formatDate now2 (match X with sunset => 1 | netz => 0 end))).
Proof.
  intros Hreach Hid Hdiff Hd w'.
  pose proof (reachable_Inv page firstTimer w Hreach) as Hw.
  assert (Hw' : w' = expire X (paint (countdownId X) TIME_PASSED "red" w)).
  { unfold w', step, exec, timerFires, bind at 1, gets. rewrite Hid.
    rewrite tick_run. cbn [snd]. unfold ticked. rewrite Hdiff.
    unfold Num.leb. destruct (Z.leb_spec d 0); [reflexivity|lia]. }
  clearbody w'. subst w'.
  pose proof Hw as (Hpos & Hci & Hids & Hint & Hto).
  destruct (Hint id p target X Hid) as (_ & _ & [e He]).
  split.
  { change (field (paint (countdownId X) TIME_PASSED "red" w) X
            = Some (mkElement TIME_PASSED "red")).
    rewrite field_paint, decide_True by reflexivity. rewrite He. reflexivity. }
  split.
  { apply quiet_expire, Inv_paint, Hw. }
  split.
  { unfold expire. cbn [timers nextTimer set_timers set_nextTimer paint set_document].
    apply lookup_insert_eq. }
  split; [reflexivity|]. split; [reflexivity|].
  intros w2 Hreach2 Hpending. split.
  { intros ev Hother.
    apply timeout_survives_step; [|exact Hpending|exact Hother].
    exact (reachable_Inv page firstTimer w2 Hreach2). }
  intros now2 w3.
  assert (Hw3 : w3 =
            set_inflight (inflight w2 ++ [requestFor (isNetz (otherTarget X)) now2])%list
              (set_mode (otherTarget X)
                 (set_timers (delete (nextTimer w) (timers w2)) w2))).
  { unfold w3, step, exec, timerFires, bind at 1, gets. rewrite Hpending.
    unfold clearInterval, flipMode. rewrite !bind_modify.
    unfold bind, gets. rewrite fetchZmanim_run. cbn [snd mode set_mode].
    destruct X; reflexivity. }
  clearbody w3. subst w3.
  repeat split; destruct X; reflexivity.
Qed.

(** C6: in every reachable world at most one countdown interval is
    alive, and its period is one second; a call of [startCountdown] from
    such a world removes the interval that was alive and leaves at most one
    alive, the one it has just armed. *)
Theorem single_countdown_interval (page : gmap string Element) (firstTimer : Z)
    (w : World) :
  reachable page firstTimer w ->
  (forall id1 id2 p1 p2 t1 t2 X1 X2,
     timers w !! id1 = Some (Interval p1 t1 X1) ->
     timers w !! id2 = Some (Interval p2 t2 X2) ->
     id1 = id2 /\ p1 = 1000) /\
  (forall target X now,
     let w' := exec (startCountdown target X now) w in
     (forall id p t Y, timers w !! id = Some (Interval p t Y) ->
                       timers w' !! id = None) /\
     (forall id1 id2 p1 p2 t1 t2 X1 X2,
        timers w' !! id1 = Some (Interval p1 t1 X1) ->
        timers w' !! id2 = Some (Interval p2 t2 X2) ->
        id1 = id2 /\ id1 = countdownInterval w' /\ p1 = 1000)).
Proof.
  intros Hreach.
  pose proof (reachable_Inv page firstTimer w Hreach) as Hw.
  split.
  - intros id1 id2 p1 p2 t1 t2 X1 X2 H1 H2.
    destruct (Inv_single w id1 id2 p1 p2 t1 t2 X1 X2 Hw H1 H2) as (E & P & _).
    auto.
  - intros target X now w'. split.
    + intros id p t Y Hid.
      exact (startCountdown_drops_interval target X now w id p t Y Hw Hid).
    + intros id1 id2 p1 p2 t1 t2 X1 X2 H1 H2.
      pose proof (Inv_startCountdown target X now w Hw) as Hw'.
      fold w' in Hw'.
      destruct (Inv_single w' id1 id2 p1 p2 t1 t2 X1 X2 Hw' H1 H2) as (E & P & _).
      destruct Hw' as (_ & _ & _ & Hint & _).
      destruct (Hint id1 p1 t1 X1 H1) as (Hci & _).
      auto.
Qed.


End Controller.

(** ** The claims on the sample page *)

Local Abbreviation sampleStep :=
  (step sampleFormatDate sampleParse sampleOffset).
Local Abbreviation sampleReachable :=
  (reachable sampleFormatDate sampleParse sampleOffset samplePage 1).
Local Abbreviation sampleResume :=
  (fetchZmanim_resume sampleFormatDate sampleParse sampleOffset).
Local Abbreviation loaded :=
  (exec (fetchZmanim sampleFormatDate false 0) (initial samplePage 1)).
(* The first answer arrives at 5:50 AM: the countdown to sunrise is live. *)
Local Abbreviation beforeSunrise :=
  (sampleStep (FetchSettles 0 (FetchResponse 200 (JsonValue sampleData))
                 21000000 21000001) loaded).

Lemma loaded_reachable : sampleReachable loaded.
Proof. apply reach_loaded. reflexivity. Defined.

Lemma beforeSunrise_reachable : sampleReachable beforeSunrise.
Proof. apply reach_step, loaded_reachable. Defined.

Lemma fetchZmanim_chooses_countdown_witness :
  response_ok 200 = true /\
  incomplete sampleData = false /\
  is_Some (field loaded netz) /\
  is_Some (field loaded sunset) /\
  let w' := exec (sampleResume sampleRequest (FetchResponse 200 (JsonValue sampleData))
                    21000000 21000001) loaded in
  mode w' = netz /\
  timers w' !! countdownInterval w' = Some (Interval 1000 (Dayjs.Instant 21660000) netz) /\
  textContent <$> field w' netz = Some (tickText (Some (21660000 - 21000001))) /\
  inflight w' = inflight loaded.
Proof.
  assert (Hnetz : is_Some (field loaded netz)) by (eexists; vm_compute; reflexivity).
  assert (Hsunset : is_Some (field loaded sunset)) by (eexists; vm_compute; reflexivity).
  split; [reflexivity|]. split; [reflexivity|].
  split; [exact Hnetz|]. split; [exact Hsunset|].
  intros w'.
  apply (fetchZmanim_chooses_countdown sampleFormatDate sampleParse sampleOffset
           sampleRequest 200 sampleData 21000000 21000001 loaded 21660000 60720000
           eq_refl eq_refl eq_refl eq_refl Hnetz Hsunset).
  lia.
Defined.

Lemma expired_tick_flips_mode_witness :
  sampleReachable beforeSunrise /\
  timers beforeSunrise !! 1 = Some (Interval 1000 (Dayjs.Instant 21660000) netz) /\
  Dayjs.diff (Dayjs.Instant 21660000) 21700000 = Some (-40000) /\
  -40000 <= 0 /\
  let w' := sampleStep (TimerFires 1 21700000) beforeSunrise in
  field w' netz = Some (mkElement TIME_PASSED "red") /\
  quiet w' /\
  timers w' !! nextTimer beforeSunrise = Some (Timeout 5000 netz) /\
  mode (sampleStep (TimerFires (nextTimer beforeSunrise) 21705000) w') = sunset.
Proof.
  assert (Hid : timers beforeSunrise !! 1
                = Some (Interval 1000 (Dayjs.Instant 21660000) netz))
    by (vm_compute; reflexivity).
  split; [exact beforeSunrise_reachable|]. split; [exact Hid|].
  split; [reflexivity|]. split; [lia|].
  intros w'.
  destruct (expired_tick_flips_mode sampleFormatDate sampleParse sampleOffset samplePage 1
              beforeSunrise 1 1000 (Dayjs.Instant 21660000) netz 21700000 (-40000)
              beforeSunrise_reachable Hid eq_refl ltac:(lia))
    as (Hfield & Hquiet & Htimeout & _ & _ & Hflip).
  split; [exact Hfield|]. split; [exact Hquiet|]. split; [exact Htimeout|].
  assert (Hreach : sampleReachable w')
    by (apply reach_step, beforeSunrise_reachable).
  destruct (Hflip w' Hreach Htimeout) as [_ Hfire].
  exact (proj1 (Hfire 21705000)).
Defined.

Lemma tick_color_by_tier_witness :
  field (initial samplePage 1) netz = Some (mkElement "--:--:--" "blue") /\
  field (initial samplePage 1) sunset = Some (mkElement "--:--:--" "orange") /\
  (exists e',
     field (exec (tick (Dayjs.Instant 100000) netz (countdownId netz) 0)
              (initial samplePage 1)) netz = Some e' /\
     color e' = "red") /\
  (exists e',
     field (exec (tick (Dayjs.Instant 200000) netz (countdownId netz) 0)
              (initial samplePage 1)) netz = Some e' /\
     color e' = "orange") /\
  (exists e',
     field (exec (tick (Dayjs.Instant 400000) netz (countdownId netz) 0)
              (initial samplePage 1)) netz = Some e' /\
     color e' = "blue") /\
  (exists e',
     field (exec (tick (Dayjs.Instant 400000) sunset (countdownId sunset) 0)
              (initial samplePage 1)) sunset = Some e' /\
     color e' = "orange").
Proof.
  assert (Hnetz : field (initial samplePage 1) netz
                  = Some (mkElement "--:--:--" "blue"))
    by (vm_compute; reflexivity).
  assert (Hsunset : field (initial samplePage 1) sunset
                    = Some (mkElement "--:--:--" "orange"))
    by (vm_compute; reflexivity).
  split; [exact Hnetz|]. split; [exact Hsunset|].
  split; [|split; [|split]].
  - destruct (tick_color_by_tier 100000 netz 0 _ _ Hnetz)
      as (e' & Hfield & _ & Hcrit & _).
    exists e'. split; [exact Hfield|]. apply Hcrit. lia.
  - destruct (tick_color_by_tier 200000 netz 0 _ _ Hnetz)
      as (e' & Hfield & _ & _ & Hwarn & _).
    exists e'. split; [exact Hfield|]. apply Hwarn. lia.
  - destruct (tick_color_by_tier 400000 netz 0 _ _ Hnetz)
      as (e' & Hfield & _ & _ & _ & Hdef).
    exists e'. split; [exact Hfield|]. apply Hdef; [lia|reflexivity].
  - destruct (tick_color_by_tier 400000 sunset 0 _ _ Hsunset)
      as (e' & Hfield & _ & _ & _ & Hdef).
    exists e'. split; [exact Hfield|]. apply Hdef; [lia|reflexivity].
Defined.

Lemma tick_text_rendering_witness :
  field (initial samplePage 1) sunset = Some (mkElement "--:--:--" "orange") /\
  0 < 61000 - 0 /\
  exists e',
    field (exec (tick (Dayjs.Instant 61000) sunset (countdownId sunset) 0)
             (initial samplePage 1)) sunset = Some e' /\
    textContent e' = "00:01:01".
Proof.
  assert (Hfield : field (initial samplePage 1) sunset
                   = Some (mkElement "--:--:--" "orange"))
    by (vm_compute; reflexivity).
  split; [exact Hfield|]. split; [lia|].
  destruct (tick_text_rendering 61000 sunset 0 (initial samplePage 1)
              (mkElement "--:--:--" "orange") Hfield ltac:(lia))
    as (e' & He' & _ & H61).
  exists e'. split; [exact He'|]. apply H61. reflexivity.
Defined.

Lemma fetch_failure_shows_error_markers_witness :
  fetchFailed (FetchResponse 500 (JsonValue sampleData)) = true /\
  let w' := exec (sampleResume sampleRequest (FetchResponse 500 (JsonValue sampleData))
                    21000000 21000001) loaded in
  document w' !! "countdown-netz" = Some (mkElement API_ERROR "blue") /\
  document w' !! "sunrise-time" = Some (mkElement SHORT_ERROR "") /\
  document w' !! "current-date" = document loaded !! "current-date" /\
  timers w' = timers loaded /\
  inflight w' = inflight loaded.
Proof.
  split; [reflexivity|]. intros w'.
  destruct (fetch_failure_shows_error_markers sampleFormatDate sampleParse sampleOffset
              sampleRequest (FetchResponse 500 (JsonValue sampleData))
              21000000 21000001 loaded eq_refl)
    as (_ & Hin & Hout & Htimers & _ & _ & Hinflight & _).
  subst w'.
  split; [rewrite (Hin "countdown-netz") by (cbn; tauto); vm_compute; reflexivity|].
  split; [rewrite (Hin "sunrise-time") by (cbn; tauto); vm_compute; reflexivity|].
  split; [apply Hout; cbn; intros [H|[H|[H|[H|[H|[]]]]]]; discriminate H|].
  split; [exact Htimers | exact Hinflight].
Defined.

Lemma single_countdown_interval_witness :
  sampleReachable beforeSunrise /\
  (forall id1 id2 p1 p2 t1 t2 X1 X2,
     timers beforeSunrise !! id1 = Some (Interval p1 t1 X1) ->
     timers beforeSunrise !! id2 = Some (Interval p2 t2 X2) ->
     id1 = id2 /\ p1 = 1000).
Proof.
  split; [exact beforeSunrise_reachable|].
  exact (proj1 (single_countdown_interval sampleFormatDate sampleParse sampleOffset
                  samplePage 1 beforeSunrise beforeSunrise_reachable)).
Defined.


Lemma dawn_is_sunrise_minus_72_minutes_witness :
  sampleReachable beforeSunrise /\
  calculateAlotHashahar (Dayjs.Instant 22320000) = Dayjs.Instant (22320000 - 72 * 60 * 1000) /\
  alotHashaharTime beforeSunrise = calculateAlotHashahar <$> netzTime beforeSunrise /\
  Dayjs.format_Hmm sampleOffset (calculateAlotHashahar (Dayjs.Instant 22320000)) = "5:00".
Proof.
  split; [exact beforeSunrise_reachable|].
  destruct (dawn_is_sunrise_minus_72_minutes sampleFormatDate sampleParse sampleOffset
              samplePage 1 beforeSunrise 22320000 beforeSunrise_reachable)
    as (Hcalc & Hinv & _ & Hexample).
  split; [exact Hcalc|]. split; [exact Hinv|].
  exact (proj2 (Hexample eq_refl eq_refl eq_refl)).
Defined.

Lemma startCountdown_null_only_cancels_witness :
  sampleReachable beforeSunrise /\
  let w' := exec (startCountdown None sunset 21000002) beforeSunrise in
  document w' = document beforeSunrise /\ quiet w'.
Proof.
  split; [exact beforeSunrise_reachable|]. intros w'.
  destruct (startCountdown_null_only_cancels sampleFormatDate sampleParse sampleOffset
              sunset 21000002 beforeSunrise)
    as (_ & Hdoc & _ & _ & _ & _ & _ & _ & _ & _ & Hquiet).
  split; [exact Hdoc|].
  exact (Hquiet samplePage 1 beforeSunrise_reachable).
Defined.

Lemma warning_tier_visible_only_for_netz_witness :
  120000 < 400000 - 200000 <= 300000 /\
  300000 < 400000 - 0 /\
  color <$> field (exec (tick (Dayjs.Instant 400000) sunset (countdownId sunset) 200000)
                     (initial samplePage 1)) sunset = Some "orange" /\
  color <$> field (exec (tick (Dayjs.Instant 400000) sunset (countdownId sunset) 0)
                     (initial samplePage 1)) sunset = Some "orange" /\
  color <$> field (exec (tick (Dayjs.Instant 400000) netz (countdownId netz) 200000)
                     (initial samplePage 1)) netz = Some "orange" /\
  color <$> field (exec (tick (Dayjs.Instant 400000) netz (countdownId netz) 0)
                     (initial samplePage 1)) netz = Some "blue".
Proof.
  split; [lia|]. split; [lia|].
  destruct (warning_tier_visible_only_for_netz 400000 200000 0 (initial samplePage 1)
              ltac:(lia) ltac:(lia)) as [Hsunset Hnetz].
  destruct (Hsunset (mkElement "--:--:--" "orange") eq_refl) as [S1 S2].
  destruct (Hnetz (mkElement "--:--:--" "blue") eq_refl) as [N1 N2].
  split; [exact S1|]. split; [exact S2|]. split; [exact N1 | exact N2].
Defined.

(** ** Further properties of the code *)

Section Further.

Variable formatDate : Z -> Z -> string.
Variable parseDateTime : string -> Dayjs.t.
Variable utcOffset : Z -> Z.

Local Abbreviation resume := (fetchZmanim_resume formatDate parseDateTime utcOffset).
Local Abbreviation resume_try := (fetchZmanim_try formatDate parseDateTime utcOffset).

(** *** [updateText] and [handleApiError] *)

Lemma updateText_exact (id text : string) (w : World) :
  updateText id text w =
  (Normal tt,
   set_console (console w ++ if absent w id then [updateFailure id] else [])%list
     (write id text w)).
Proof.
  unfold updateText, getElement, absent, write, try_catch, bind.
  destruct (document w !! id) eqn:Hid; cbn.
  - unfold set_console, set_document. cbn. rewrite app_nil_r. reflexivity.
  - unfold console_error, modify, set_console, set_document. cbn.
    rewrite alter_absent by exact Hid. reflexivity.
Qed.

Lemma absent_write (el text : string) (w : World) (k : string) :
  absent (write el text w) k = absent w k.
Proof.
  unfold absent, write. cbn [document set_document]. rewrite lookup_alter.
  case_decide as Hk; [subst k|reflexivity].
  destruct (document w !! el); reflexivity.
Qed.

(** X1: [updateText] never throws; it replaces the text of the element
    with that id and nothing else in the document; when the page has no
    such element the document stays as it was and exactly one line is
    logged. *)
Theorem updateText_effect (id text : string) (w : World) :
  let w' := exec (updateText id text) w in
  outcome (updateText id text) w = Normal tt /\
  document w' !! id = withText text <$> document w !! id /\
  (forall k, k <> id -> document w' !! k = document w !! k) /\
  console w' = (console w ++ if absent w id then [updateFailure id] else [])%list /\
  (absent w id = true -> document w' = document w) /\
  timers w' = timers w /\ nextTimer w' = nextTimer w /\
  countdownInterval w' = countdownInterval w /\
  mode w' = mode w /\ inflight w' = inflight w.
Proof.
  unfold exec, outcome. rewrite updateText_exact. cbn [fst snd].
  split; [reflexivity|].
  split; [apply lookup_alter_eq|].
  split; [intros k Hk; apply lookup_alter_ne; congruence|].
  split; [reflexivity|].
  split; [|repeat split].
  unfold absent. intros Habsent. apply alter_absent.
  destruct (document w !! id); [discriminate|reflexivity].
Qed.

Lemma bind_updateText {B} (id text : string) (k : unit -> Eff B) (w : World) :
  bind (updateText id text) k w =
  k tt (set_console (console w ++ if absent w id then [updateFailure id] else [])%list
          (write id text w)).
Proof. unfold bind. rewrite updateText_exact. reflexivity. Qed.

Lemma absent_set_console (c : list string) (w : World) (k : string) :
  absent (set_console c w) k = absent w k.
Proof. reflexivity. Qed.

Lemma write_set_console (id text : string) (c : list string) (w : World) :
  write id text (set_console c w) = set_console c (write id text w).
Proof. reflexivity. Qed.

Lemma set_console_twice (c c' : list string) (w : World) :
  set_console c (set_console c' w) = set_console c w.
Proof. reflexivity. Qed.

Lemma console_set_console (c : list string) (w : World) :
  console (set_console c w) = c.
Proof. reflexivity. Qed.

Lemma console_write (id text : string) (w : World) :
  console (write id text w) = console w.
Proof. reflexivity. Qed.

Ltac tidy_console :=
  repeat first
    [ rewrite write_set_console
    | rewrite set_console_twice
    | rewrite console_set_console
    | rewrite console_write
    | rewrite absent_set_console
    | rewrite absent_write ].

Lemma handleApiError_exact (message : string) (w : World) :
  handleApiError message w =
  (Normal tt,
   set_console
     (console w ++ message :: map updateFailure (List.filter (absent w) dependentFields))%list
     (marked w)).
Proof.
  unfold handleApiError, console_error. rewrite bind_modify.
  rewrite !bind_updateText, updateText_exact.
  tidy_console.
  change (console (set_console (console w ++ [message])%list w))
    with (console w ++ [message])%list.
  f_equal. unfold marked. f_equal.
  unfold dependentFields. cbn [List.filter].
  repeat rewrite <- app_assoc. f_equal. cbn [app].
  f_equal.
  destruct (absent w "countdown-netz"), (absent w "countdown-sunset"),
    (absent w "alot-hashahar-time"), (absent w "sunrise-time"),
    (absent w "sunset-time"); reflexivity.
Qed.

(** X2: [handleApiError] never throws; it logs its message and then one
    line for each of the five dependent fields the page lacks, in the
    order it visits them, and writes the markers. *)
Theorem handleApiError_logs_each_missing_field (message : string) (w : World) :
  let w' := exec (handleApiError message) w in
  outcome (handleApiError message) w = Normal tt /\
  console w' =
    (console w ++ message :: map updateFailure (List.filter (absent w) dependentFields))%list /\
  (length (console w') =
     length (console w) + 1 + length (List.filter (absent w) dependentFields))%nat /\
  document w' = document (marked w).
Proof.
  unfold exec, outcome. rewrite handleApiError_exact. cbn [fst snd].
  split; [reflexivity|]. split; [reflexivity|]. split; [|reflexivity].
  rewrite console_set_console, length_app. cbn [length].
  rewrite length_map. lia.
Qed.

(** *** [startCountdown] and [tick] *)

Lemma cancel_prefix (X : CountdownMode) (w : World) :
  (let* id := gets countdownInterval in
   if Z.eqb id 0 then ret tt else clearInterval id) w = (Normal tt, cancel w).
Proof.
  unfold cancel, clearInterval, bind, gets, ret, modify.
  destruct (Z.eqb (countdownInterval w) 0); reflexivity.
Qed.

(** X3: when the page lacks the countdown element of the target, or has
    it but lacks the other target's, [startCountdown] throws the error of
    [getElement] for the first missing one, after it has cleared the
    interval named by [countdownInterval]: the previous countdown is gone,
    no timer is armed and no element is written. *)
Theorem startCountdown_without_element (t : Dayjs.t) (X : CountdownMode)
    (now : Z) (w : World) :
  field w X = None \/ field w (otherTarget X) = None ->
  let w' := exec (startCountdown (Some t) X now) w in
  outcome (startCountdown (Some t) X now) w =
    Throw (notFound (match field w X with
                     | None => countdownId X
                     | Some _ => countdownId (otherTarget X)
                     end)) /\
  document w' = document w /\
  timers w' = (if Z.eqb (countdownInterval w) 0 then timers w
               else delete (countdownInterval w) (timers w)) /\
  nextTimer w' = nextTimer w /\
  countdownInterval w' = countdownInterval w /\
  mode w' = mode w /\ inflight w' = inflight w.
Proof.
  intros Hmiss.
  assert (Hrun : startCountdown (Some t) X now w =
                 (Throw (notFound (match field w X with
                                   | None => countdownId X
                                   | Some _ => countdownId (otherTarget X)
                                   end)), cancel w)).
  { unfold startCountdown. rewrite (bind_normal _ _ _ _ _ (cancel_prefix X w)).
    unfold bind at 1, getElement at 1.
    pose proof (cancel_field w X) as Hx. unfold field in Hx. rewrite Hx.
    fold (field w X).
    destruct (field w X) as [e|] eqn:He; [|reflexivity].
    destruct Hmiss as [Hx'|Ho]; [discriminate|].
    unfold bind at 1, bind at 1, getElement at 1.
    pose proof (cancel_field w (otherTarget X)) as Hy. unfold field in Hy.
    rewrite Hy. fold (field w (otherTarget X)). rewrite Ho. reflexivity. }
  unfold exec, outcome. rewrite Hrun. cbn [fst snd].
  split; [reflexivity|].
  split; [apply cancel_document|].
  split; [unfold cancel; destruct (Z.eqb (countdownInterval w) 0); reflexivity|].
  split; [apply cancel_nextTimer|].
  split; [apply cancel_countdownInterval|].
  destruct (cancel_rest w) as (_ & _ & _ & Hm & Hi & _). auto.
Qed.

(** X4: a [tick] never throws and writes to no element but its own; it
    leaves the mode, the stored times, [countdownInterval] and the pending
    requests as they were, and as long as the target is ahead it leaves
    the timers as they were too. *)
Theorem tick_touches_only_its_field (target : Dayjs.t) (X : CountdownMode)
    (el : string) (now : Z) (w : World) :
  let w' := exec (tick target X el now) w in
  outcome (tick target X el now) w = Normal tt /\
  (forall k, k <> el -> document w' !! k = document w !! k) /\
  (forall k, is_Some (document w' !! k) <-> is_Some (document w !! k)) /\
  mode w' = mode w /\
  netzTime w' = netzTime w /\ sunsetTime w' = sunsetTime w /\
  alotHashaharTime w' = alotHashaharTime w /\
  countdownInterval w' = countdownInterval w /\
  inflight w' = inflight w /\
  (Num.leb (Dayjs.diff target now) 0 = false ->
     timers w' = timers w /\ nextTimer w' = nextTimer w).
Proof.
  unfold exec, outcome. rewrite tick_run. cbn [fst snd].
  destruct (ticked_rest target X el now w) as (Hn & Hs & Ha & Hm & Hi & Hc & _).
  split; [reflexivity|].
  assert (Hdoc : document (ticked target X el now w) =
                 alter (withColor (tickColor X (Dayjs.diff target now))) el
                   (alter (withText (tickText (Dayjs.diff target now))) el (document w))).
  { unfold ticked, tickText, tickColor.
    destruct (Num.leb (Dayjs.diff target now) 0); reflexivity. }
  split; [intros k Hk; rewrite Hdoc, !lookup_alter_ne by congruence; reflexivity|].
  split; [intros k; rewrite Hdoc, !lookup_alter_is_Some; reflexivity|].
  repeat (split; [assumption|]).
  intros Hahead. unfold ticked. rewrite Hahead. split; reflexivity.
Qed.

(** *** The event loop *)

(** X5: no callback of the event loop throws: a timer that fires and a
    request that settles, whatever it settles with and whatever the page
    lacks, complete normally. *)
Theorem event_callbacks_never_throw (e : Event) (w : World) :
  match e with
  | TimerFires id now => outcome (timerFires formatDate id now) w = Normal tt
  | FetchSettles i result now now' =>
      outcome (fetchSettles formatDate parseDateTime utcOffset i result now now') w
      = Normal tt
  end.
Proof.
  destruct e as [id now|i result now now']; unfold outcome.
  - unfold timerFires, bind at 1, gets.
    destruct (timers w !! id) as [[p t X|d X]|]; [|reflexivity|reflexivity].
    rewrite tick_run. reflexivity.
  - unfold fetchSettles, bind at 1, gets.
    destruct (inflight w !! i) as [req|]; [|reflexivity].
    rewrite bind_modify. apply fetchZmanim_resume_normal.
Qed.

(** *** A refresh, beyond the three ordinary outcomes *)

Lemma document_paint_ne (el text c : string) (w : World) (k : string) :
  k <> el -> document (paint el text c w) !! k = document w !! k.
Proof.
  intros Hk. unfold paint. cbn [document set_document].
  rewrite !lookup_alter_ne by congruence. reflexivity.
Qed.

Lemma document_ticked_ne (t : Dayjs.t) (X : CountdownMode) (el : string) (now : Z)
    (w : World) (k : string) :
  k <> el -> document (ticked t X el now w) !! k = document w !! k.
Proof.
  intros Hk. unfold ticked. destruct (Num.leb (Dayjs.diff t now) 0).
  - change (document (expire X (paint el TIME_PASSED "red" w)))
      with (document (paint el TIME_PASSED "red" w)).
    apply document_paint_ne, Hk.
  - apply document_paint_ne, Hk.
Qed.

Lemma stored_lookup_countdown (n s : Dayjs.t) (w : World) (X : CountdownMode) :
  field (stored utcOffset n s w) X = field w X.
Proof.
  unfold field, stored, write. cbn [document set_document set_alotHashaharTime
                                   set_sunsetTime set_netzTime].
  rewrite !lookup_alter_ne by (destruct X; vm_compute; discriminate).
  reflexivity.
Qed.

Lemma stored_lookup_other (n s : Dayjs.t) (w : World) (k : string) :
  ~ In k dependentFields ->
  document (stored utcOffset n s w) !! k = document w !! k.
Proof.
  intros Hk. unfold stored, write. cbn [document set_document set_alotHashaharTime
                                        set_sunsetTime set_netzTime].
  rewrite !lookup_alter_ne; [reflexivity|..]; intros <-; apply Hk; cbn; tauto.
Qed.

Lemma stored_lookup_times (n s : Dayjs.t) (w : World) :
  document (stored utcOffset n s w) !! "alot-hashahar-time"
    = withText (Dayjs.format_Hmm utcOffset (calculateAlotHashahar n))
        <$> document w !! "alot-hashahar-time" /\
  document (stored utcOffset n s w) !! "sunrise-time"
    = withText (Dayjs.format_Hmm utcOffset n) <$> document w !! "sunrise-time" /\
  document (stored utcOffset n s w) !! "sunset-time"
    = withText (Dayjs.format_Hmm utcOffset s) <$> document w !! "sunset-time".
Proof.
  unfold stored, write. cbn [document set_document set_alotHashaharTime
                             set_sunsetTime set_netzTime].
  repeat split;
    repeat (rewrite lookup_alter_ne by discriminate);
    rewrite lookup_alter_eq;
    repeat (rewrite lookup_alter_ne by discriminate);
    reflexivity.
Qed.

Lemma marked_over_stored (n s : Dayjs.t) (w : World) (k : string) :
  In k dependentFields ->
  withText (errorMarker k) <$> document (stored utcOffset n s w) !! k
  = withText (errorMarker k) <$> document w !! k.
Proof.
  intros Hk. destruct (stored_lookup_times n s w) as (Ha & Hn & Hs).
  cbn in Hk.
  destruct Hk as [<-|[<-|[<-|[<-|[<-|[]]]]]].
  - change (document (stored utcOffset n s w) !! "countdown-netz")
      with (field (stored utcOffset n s w) netz).
    rewrite stored_lookup_countdown. reflexivity.
  - change (document (stored utcOffset n s w) !! "countdown-sunset")
      with (field (stored utcOffset n s w) sunset).
    rewrite stored_lookup_countdown. reflexivity.
  - rewrite Ha. destruct (document w !! "alot-hashahar-time"); reflexivity.
  - rewrite Hn. destruct (document w !! "sunrise-time"); reflexivity.
  - rewrite Hs. destruct (document w !! "sunset-time"); reflexivity.
Qed.

(** X6: a complete, readable answer on a page that lacks one of the two
    countdown elements, with a target still ahead: [startCountdown] throws
    inside the [try], so the five fields end with the error markers (the
    three times just written are overwritten), no countdown is armed and
    the previous interval is cleared; yet the new times stay stored and the
    mode stays set. *)
Theorem refresh_without_countdown_element (req : Request) (status : Z)
    (data : option Api.ZmanimData) (now now' : Z) (w : World) (n s : Z) :
  response_ok status = true ->
  incomplete data = false ->
  parseDateTime (date req ++ " " ++ textOf (Api.sunrise (resultsOf data)))
    = Dayjs.Instant n ->
  parseDateTime (date req ++ " " ++ textOf (Api.sunset (resultsOf data)))
    = Dayjs.Instant s ->
  0 < n - now \/ 0 < s - now ->
  field w netz = None \/ field w sunset = None ->
  let w' := exec (resume req (FetchResponse status (JsonValue data)) now now') w in
  (forall k, In k dependentFields ->
     document w' !! k = withText (errorMarker k) <$> document w !! k) /\
  (forall k, ~ In k dependentFields -> document w' !! k = document w !! k) /\
  timers w' = (if Z.eqb (countdownInterval w) 0 then timers w
               else delete (countdownInterval w) (timers w)) /\
  nextTimer w' = nextTimer w /\
  inflight w' = inflight w /\
  netzTime w' = Some (Dayjs.Instant n) /\
  sunsetTime w' = Some (Dayjs.Instant s) /\
  alotHashaharTime w' = Some (calculateAlotHashahar (Dayjs.Instant n)) /\
  mode w' = (if Z.ltb 0 (n - now) then netz else sunset).
Proof.
  intros Hok Hdata Hn Hs Hahead Hmiss w'.
  set (X := if Z.ltb 0 (n - now) then netz else sunset).
  assert (Hw' : exists c c',
             w' = set_console c' (marked (cancel (set_mode X (set_console c
                    (stored utcOffset (Dayjs.Instant n) (Dayjs.Instant s) w)))))).
  { unfold w', exec, fetchZmanim_resume, try_catch.
    destruct (fetchZmanim_try_complete formatDate parseDateTime utcOffset
                req status data now now' w Hok Hdata) as [c ->].
    rewrite Hn, Hs. unfold Dayjs.diff, Num.gtb. rewrite !Z.gtb_ltb.
    exists c.
    assert (Hthrow : forall t Y w1,
               field w1 netz = field w netz -> field w1 sunset = field w sunset ->
               exists message, startCountdown (Some t) Y now' w1 = (Throw message, cancel w1)).
    { intros t Y w1 H1 H2. apply startCountdown_throw.
      destruct Y; cbn [otherTarget]; rewrite H1, H2; tauto. }
    unfold X.
    destruct (Z.ltb_spec 0 (n - now)) as [Hnpos|Hnle].
    - destruct (Hthrow (Dayjs.Instant n) netz
                  (set_mode netz (set_console c
                     (stored utcOffset (Dayjs.Instant n) (Dayjs.Instant s) w))))
        as [message ->]; [apply stored_lookup_countdown..|].
      rewrite handleApiError_exact. eexists. reflexivity.
    - destruct (Z.ltb_spec 0 (s - now)) as [Hspos|Hsle]; [|lia].
      destruct (Hthrow (Dayjs.Instant s) sunset
                  (set_mode sunset (set_console c
                     (stored utcOffset (Dayjs.Instant n) (Dayjs.Instant s) w))))
        as [message ->]; [apply stored_lookup_countdown..|].
      rewrite handleApiError_exact. eexists. reflexivity. }
  destruct Hw' as (c & c' & Hw'). clearbody w'. subst w'.
  set (w1 := set_mode X (set_console c
               (stored utcOffset (Dayjs.Instant n) (Dayjs.Instant s) w))).
  assert (Hdoc : document (cancel w1)
                 = document (stored utcOffset (Dayjs.Instant n) (Dayjs.Instant s) w))
    by (rewrite cancel_document; reflexivity).
  split.
  { intros k Hk.
    change (document (marked (cancel w1)) !! k
            = withText (errorMarker k) <$> document w !! k).
    rewrite (marked_lookup_field k (cancel w1) Hk), Hdoc.
    apply marked_over_stored, Hk. }
  split.
  { intros k Hk.
    change (document (marked (cancel w1)) !! k = document w !! k).
    rewrite (marked_lookup_other k (cancel w1) Hk), Hdoc.
    apply stored_lookup_other, Hk. }
  split.
  { change (timers (cancel w1)
            = if Z.eqb (countdownInterval w) 0 then timers w
              else delete (countdownInterval w) (timers w)).
    unfold cancel. change (countdownInterval w1) with (countdownInterval w).
    destruct (Z.eqb (countdownInterval w) 0); reflexivity. }
  split; [exact (cancel_nextTimer w1)|].
  destruct (cancel_rest w1) as (Tn & Ts & Ta & Tm & Ti & _).
  split; [exact Ti|]. split; [exact Tn|]. split; [exact Ts|].
  split; [exact Ta | exact Tm].
Qed.

(** X7: a complete answer whose two times Day.js cannot read: both
    differences are [NaN], no comparison holds, so no countdown is armed
    and no timer is touched, the mode is netz, the three time fields read
    [Invalid Date], and a request for tomorrow is sent at once. *)
Theorem unreadable_times_refetch_tomorrow (req : Request) (status : Z)
    (data : option Api.ZmanimData) (now now' : Z) (w : World) :
  response_ok status = true ->
  incomplete data = false ->
  parseDateTime (date req ++ " " ++ textOf (Api.sunrise (resultsOf data)))
    = Dayjs.Invalid ->
  parseDateTime (date req ++ " " ++ textOf (Api.sunset (resultsOf data)))
    = Dayjs.Invalid ->
  let w' := exec (resume req (FetchResponse status (JsonValue data)) now now') w in
  inflight w' = (inflight w ++ [requestFor formatDate true now'])%list /\
  timers w' = timers w /\ nextTimer w' = nextTimer w /\
  countdownInterval w' = countdownInterval w /\
  mode w' = netz /\
  netzTime w' = Some Dayjs.Invalid /\ sunsetTime w' = Some Dayjs.Invalid /\
  alotHashaharTime w' = Some Dayjs.Invalid /\
  (forall k, In k ["alot-hashahar-time"; "sunrise-time"; "sunset-time"] ->
     document w' !! k = withText "Invalid Date" <$> document w !! k) /\
  (forall X, field w' X = field w X).
Proof.
  intros Hok Hdata Hn Hs w'.
  assert (Hw' : exists c,
             w' = set_inflight (inflight w ++ [requestFor formatDate true now'])%list
                    (set_mode netz (set_console c
                       (stored utcOffset Dayjs.Invalid Dayjs.Invalid w)))).
  { unfold w', exec, fetchZmanim_resume, try_catch.
    destruct (fetchZmanim_try_complete formatDate parseDateTime utcOffset
                req status data now now' w Hok Hdata) as [c ->].
    rewrite Hn, Hs. cbn [Dayjs.diff Num.gtb Num.NaN].
    rewrite fetchZmanim_run. exists c. reflexivity. }
  destruct Hw' as [c Hw']. clearbody w'. subst w'.
  repeat (split; [reflexivity|]).
  destruct (stored_lookup_times Dayjs.Invalid Dayjs.Invalid w) as (Ha & Hsr & Hss).
  split.
  - intros k Hk. cbn in Hk. destruct Hk as [<-|[<-|[<-|[]]]]; assumption.
  - intros X. apply stored_lookup_countdown.
Qed.

(** X8: with both times readable and both countdown elements on the
    page, after the refresh the three time fields read the dawn, the
    sunrise and the sunset that were stored, in the format [H:mm], whichever
    branch the comparison took. *)
Theorem refresh_shows_stored_times (req : Request) (status : Z)
    (data : option Api.ZmanimData) (now now' : Z) (w : World) (n s : Z) :
  response_ok status = true ->
  incomplete data = false ->
  parseDateTime (date req ++ " " ++ textOf (Api.sunrise (resultsOf data)))
    = Dayjs.Instant n ->
  parseDateTime (date req ++ " " ++ textOf (Api.sunset (resultsOf data)))
    = Dayjs.Instant s ->
  is_Some (field w netz) ->
  is_Some (field w sunset) ->
  let w' := exec (resume req (FetchResponse status (JsonValue data)) now now') w in
  document w' !! "alot-hashahar-time"
    = withText (Dayjs.format_Hmm utcOffset (Dayjs.Instant (n - 72 * 60000)))
        <$> document w !! "alot-hashahar-time" /\
  document w' !! "sunrise-time"
    = withText (Dayjs.format_Hmm utcOffset (Dayjs.Instant n)) <$> document w !! "sunrise-time" /\
  document w' !! "sunset-time"
    = withText (Dayjs.format_Hmm utcOffset (Dayjs.Instant s)) <$> document w !! "sunset-time".
Proof.
  intros Hok Hdata Hn Hs Hnetz Hsunset w'.
  destruct (fetchZmanim_resume_complete formatDate parseDateTime utcOffset
              req status data now now' w n s Hok Hdata Hn Hs Hnetz Hsunset) as [c Hw'].
  cbv zeta in Hw'. fold w' in Hw'. clearbody w'.
  assert (Hdoc : forall k, k <> countdownId netz -> k <> countdownId sunset ->
             document w' !! k
             = document (stored utcOffset (Dayjs.Instant n) (Dayjs.Instant s) w) !! k).
  { intros k Hk1 Hk2. subst w'.
    destruct (Z.ltb 0 (n - now)); [|destruct (Z.ltb 0 (s - now))].
    - change (document (ticked (Dayjs.Instant n) netz (countdownId netz) now'
                (paint (countdownId sunset) PLACEHOLDER "orange"
                   (cancel (set_mode netz (set_console c
                      (stored utcOffset (Dayjs.Instant n) (Dayjs.Instant s) w)))))) !! k
              = document (stored utcOffset (Dayjs.Instant n) (Dayjs.Instant s) w) !! k).
      rewrite document_ticked_ne, document_paint_ne, cancel_document by assumption.
      reflexivity.
    - change (document (ticked (Dayjs.Instant s) sunset (countdownId sunset) now'
                (paint (countdownId netz) PLACEHOLDER "blue"
                   (cancel (set_mode sunset (set_console c
                      (stored utcOffset (Dayjs.Instant n) (Dayjs.Instant s) w)))))) !! k
              = document (stored utcOffset (Dayjs.Instant n) (Dayjs.Instant s) w) !! k).
      rewrite document_ticked_ne, document_paint_ne, cancel_document by assumption.
      reflexivity.
    - reflexivity. }
  destruct (stored_lookup_times (Dayjs.Instant n) (Dayjs.Instant s) w) as (Ha & Hsr & Hss).
  rewrite !Hdoc by (vm_compute; discriminate).
  split; [exact Ha|]. split; [exact Hsr | exact Hss].
Qed.

Lemma startCountdown_inflight (target : option Dayjs.t) (X : CountdownMode)
    (now : Z) (w : World) :
  inflight (exec (startCountdown target X now) w) = inflight w.
Proof.
  destruct (startCountdown_cases target X now w)
    as [[-> _]|(t & _ & _ & _ & Hrun)].
  - destruct (cancel_rest w) as (_ & _ & _ & _ & Hi & _). exact Hi.
  - unfold exec. rewrite Hrun. cbn [snd].
    destruct (armed_world t X now w) as (_ & Hi & _). exact Hi.
Qed.

Lemma resume_inflight (req : Request) (result : FetchResult) (now now' : Z) (w : World) :
  inflight (exec (resume req result now now') w) = inflight w \/
  inflight (exec (resume req result now now') w)
    = (inflight w ++ [requestFor formatDate true now'])%list.
Proof.
  destruct (fetchFailed result) eqn:Hfail.
  - left. unfold exec.
    destruct (fetchZmanim_resume_failed formatDate parseDateTime utcOffset
                req result now now' w Hfail) as [c ->]. reflexivity.
  - destruct (fetchFailed_false result Hfail) as (status & data & -> & Hok & Hdata).
    unfold exec, fetchZmanim_resume, try_catch.
    destruct (fetchZmanim_try_complete formatDate parseDateTime utcOffset
                req status data now now' w Hok Hdata) as [c ->].
    set (n := parseDateTime _). set (s := parseDateTime _).
    assert (Hstart : forall t X w1, inflight w1 = inflight w ->
               inflight (snd match startCountdown (Some t) X now' w1 with
                             | (Normal a, w2) => (Normal a, w2)
                             | (Throw e, w2) =>
                                 handleApiError
                                   ("Échec de la récupération des Zmanim: " ++ e) w2
                             end) = inflight w).
    { intros t X w1 H1.
      pose proof (startCountdown_inflight (Some t) X now' w1) as Hi.
      unfold exec in Hi.
      destruct (startCountdown (Some t) X now' w1) as [[[]|message] w2]; cbn [snd] in *.
      - congruence.
      - rewrite handleApiError_exact. cbn [snd].
        change (inflight w2 = inflight w). congruence. }
    destruct (Num.gtb (Dayjs.diff n now) 0); [left; apply Hstart; reflexivity|].
    destruct (Num.gtb (Dayjs.diff s now) 0); [left; apply Hstart; reflexivity|].
    right. rewrite fetchZmanim_run. reflexivity.
Qed.

Lemma timerFires_run (id now : Z) (w : World) :
  timerFires formatDate id now w =
  match timers w !! id with
  | Some (Interval _ t X) => (Normal tt, ticked t X (countdownId X) now w)
  | Some (Timeout _ X) =>
      (Normal tt,
       set_inflight (inflight w ++ [requestFor formatDate (isNetz (otherTarget X)) now])%list
         (set_mode (otherTarget X) (set_timers (delete id (timers w)) w)))
  | None => (Normal tt, w)
  end.
Proof.
  unfold timerFires. unfold bind at 1. unfold gets at 1.
  destruct (timers w !! id) as [[p t X|d X]|].
  - apply tick_run.
  - unfold clearInterval, flipMode. rewrite !bind_modify.
    unfold bind, gets. rewrite fetchZmanim_run. destruct X; reflexivity.
  - reflexivity.
Qed.

(** X9: what one event does to the pending requests. When a pending
    request settles, with whatever result, that event does not raise the
    number of pending requests (the settled one leaves, at most one for
    tomorrow enters); a timer that fires sends a request only when it is a
    scheduled mode flip, and then exactly one; an interval tick sends none.
    This bounds a single event, not a run: two mode flips can be scheduled
    at once (see [immediate_expired_tick_leaves_interval]), and each sends
    its own request when it fires, as [two_mode_flips_send_two_requests]
    shows on the sample page. *)
Theorem one_event_sends_at_most_one_request (e : Event) (w : World) :
  let w' := step formatDate parseDateTime utcOffset e w in
  match e with
  | FetchSettles i result now now' =>
      (length (inflight w') <= length (inflight w))%nat
  | TimerFires id now =>
      match timers w !! id with
      | Some (Timeout _ X) =>
          inflight w' = (inflight w ++ [requestFor formatDate (isNetz (otherTarget X)) now])%list
      | _ => inflight w' = inflight w
      end
  end.
Proof.
  destruct e as [id now|i result now now']; cbv zeta; unfold step, exec.
  - rewrite timerFires_run.
    destruct (timers w !! id) as [[p t X|d X]|] eqn:Hid; cbn [snd].
    + destruct (ticked_rest t X (countdownId X) now w) as (_ & _ & _ & _ & Hi & _).
      exact Hi.
    + reflexivity.
    + reflexivity.
  - unfold fetchSettles, bind at 1, gets.
    destruct (inflight w !! i) as [req|] eqn:Hreq; [|cbn; lia].
    rewrite bind_modify.
    assert (Hlen : (length (delete i (inflight w)) + 1 = length (inflight w))%nat).
    { rewrite length_delete by eauto.
      apply lookup_lt_Some in Hreq. lia. }
    destruct (resume_inflight req result now now'
                (set_inflight (delete i (inflight w)) w)) as [Hi|Hi];
      unfold exec in Hi; rewrite Hi; cbn [inflight set_inflight].
    + lia.
    + rewrite length_app. cbn [length]. lia.
Qed.

(** *** What the controller never does to the page *)

Section Untouched.

Variable page : gmap string Element.

Local Abbreviation unchanged := (untouched page).

Lemma untouched_alter (f : Element -> Element) (el : string) (d : gmap string Element) :
  In el dependentFields ->
  (In el ["alot-hashahar-time"; "sunrise-time"; "sunset-time"] ->
   forall e, color (f e) = color e) ->
  unchanged d -> unchanged (alter f el d).
Proof.
  intros Hel Hcolor (Hout & Hdom & Hcol). split; [|split].
  - intros k Hk. rewrite lookup_alter_ne; [apply Hout, Hk|].
    intros <-. exact (Hk Hel).
  - intros k. rewrite lookup_alter_is_Some. apply Hdom.
  - intros k Hk. rewrite <- (Hcol k Hk).
    destruct (decide (el = k)) as [<-|Hne].
    + rewrite lookup_alter_eq. destruct (d !! el) as [e|]; [|reflexivity].
      cbn. f_equal. apply Hcolor, Hk.
    + rewrite lookup_alter_ne by exact Hne. reflexivity.
Qed.

Lemma untouched_write (el text : string) (w : World) :
  In el dependentFields ->
  unchanged (document w) -> unchanged (document (write el text w)).
Proof.
  intros Hel. unfold write. cbn [document set_document].
  apply untouched_alter; [exact Hel|]. intros _ e. reflexivity.
Qed.

Lemma untouched_paint (X : CountdownMode) (text c : string) (w : World) :
  unchanged (document w) -> unchanged (document (paint (countdownId X) text c w)).
Proof.
  intros Hw. unfold paint. cbn [document set_document].
  assert (Hin : In (countdownId X) dependentFields)
    by (destruct X; [left | right; left]; reflexivity).
  assert (Hnot : In (countdownId X) ["alot-hashahar-time"; "sunrise-time"; "sunset-time"]
                 -> forall f (e : Element), color (f e) = color e).
  { intros Hk. exfalso. destruct X; cbn in Hk;
      destruct Hk as [H|[H|[H|[]]]]; vm_compute in H; discriminate H. }
  apply untouched_alter; [exact Hin | intros Hk e; apply (Hnot Hk) |].
  apply untouched_alter; [exact Hin | intros Hk e; apply (Hnot Hk) | exact Hw].
Qed.

Lemma untouched_ticked (t : Dayjs.t) (X : CountdownMode) (now : Z) (w : World) :
  unchanged (document w) -> unchanged (document (ticked t X (countdownId X) now w)).
Proof.
  intros Hw. unfold ticked. destruct (Num.leb (Dayjs.diff t now) 0).
  - change (document (expire X (paint (countdownId X) TIME_PASSED "red" w)))
      with (document (paint (countdownId X) TIME_PASSED "red" w)).
    apply untouched_paint, Hw.
  - apply untouched_paint, Hw.
Qed.

(** X10: whatever happens, the controller adds no element to the page
    and removes none, leaves every element other than the five dependent
    fields exactly as the page had it, and never changes the color of the
    three time fields. *)
Theorem controller_writes_only_dependent_fields (firstTimer : Z) (w : World) :
  reachable formatDate parseDateTime utcOffset page firstTimer w ->
  (forall k, ~ In k dependentFields -> document w !! k = page !! k) /\
  (forall k, is_Some (document w !! k) <-> is_Some (page !! k)) /\
  (forall k, In k ["alot-hashahar-time"; "sunrise-time"; "sunset-time"] ->
     color <$> document w !! k = color <$> page !! k).
Proof.
  apply (kept_when_reachable formatDate parseDateTime utcOffset
           (fun w0 => unchanged (document w0))).
  - intros c w0 Hw. exact Hw.
  - intros l w0 Hw. exact Hw.
  - intros m w0 Hw. exact Hw.
  - intros w0 Hw. unfold marked.
    repeat (apply untouched_write; [cbn; tauto|]). exact Hw.
  - intros n s w0 Hw. unfold stored.
    repeat (apply untouched_write; [cbn; tauto|]). exact Hw.
  - intros w0 Hw. rewrite cancel_document. exact Hw.
  - intros t X now w0 Hw _ _.
    change (unchanged (document (ticked t X (countdownId X) now
              (paint (countdownId (otherTarget X)) PLACEHOLDER
                     (defaultColor (otherTarget X)) (cancel w0))))).
    apply untouched_ticked, untouched_paint. rewrite cancel_document. exact Hw.
  - intros w0 id p t X now Hw _. apply untouched_ticked, Hw.
  - intros w0 id d X Hw _. exact Hw.
  - intros _. cbn [document initial]. repeat split; auto.
Qed.

End Untouched.

(** *** The calendar fields *)

Lemma findByTitle_no_null (wanted : string) (l : list Sefaria.CalendarItem) :
  findByTitle wanted (map Some l) = Normal (List.find (hasTitle wanted) l).
Proof.
  induction l as [|item l IH]; [reflexivity|].
  cbn [map findByTitle List.find]. unfold hasTitle at 1.
  destruct (Sefaria.title_he item) as [t|]; [|exact IH].
  destruct (String.eqb t wanted); [reflexivity | exact IH].
Qed.

Lemma findByTitle_null (wanted : string) (pre : list Sefaria.CalendarItem)
    (post : list (option Sefaria.CalendarItem)) :
  findByTitle wanted (map Some pre ++ None :: post) =
  match List.find (hasTitle wanted) pre with
  | Some item => Normal (Some item)
  | None => Throw "Cannot read properties of null (reading 'title')"
  end.
Proof.
  induction pre as [|item pre IH]; [reflexivity|].
  cbn [map app findByTitle List.find]. unfold hasTitle at 1.
  destruct (Sefaria.title_he item) as [t|]; [|exact IH].
  destruct (String.eqb t wanted); [reflexivity | exact IH].
Qed.

Lemma calendar_handler_run (w : World) :
  (console_error "שגיאה בשליפת מידע Sefaria:" ;;
   updateText "dailyDaf" SHORT_ERROR ;;
   updateText "parashaName" SHORT_ERROR) w =
  (Normal tt,
   set_console
     (console w ++ "שגיאה בשליפת מידע Sefaria:"
        :: map updateFailure (List.filter (absent w) ["dailyDaf"; "parashaName"]))%list
     (write "parashaName" SHORT_ERROR (write "dailyDaf" SHORT_ERROR w))).
Proof.
  unfold console_error. rewrite bind_modify, bind_updateText, updateText_exact.
  tidy_console.
  change (console (set_console (console w ++ ["שגיאה בשליפת מידע Sefaria:"])%list w))
    with (console w ++ ["שגיאה בשליפת מידע Sefaria:"])%list.
  f_equal. f_equal. cbn [List.filter].
  repeat rewrite <- app_assoc. f_equal. cbn [app]. f_equal.
  destruct (absent w "dailyDaf"), (absent w "parashaName"); reflexivity.
Qed.

Lemma calendar_try_failed (result : FetchOf Sefaria.Calendars) (w : World) :
  calendarFailed result = true ->
  exists message, fetchJewishCalendarData_try result w = (Throw message, w).
Proof.
  unfold calendarFailed, fetchJewishCalendarData_try. intros Hfail.
  destruct result as [message|status body]; [eexists; reflexivity|].
  destruct (response_ok status); cbn in *; [|eexists; reflexivity].
  destruct body as [message|data]; [eexists; reflexivity|].
  destruct (data ≫= Sefaria.calendar_items); [discriminate|].
  eexists. reflexivity.
Qed.

(** X11: when the calendar request is rejected, answers outside 2xx,
    has a body that is not JSON or has no [calendar_items], the resumed
    [fetchJewishCalendarData] completes normally and both its fields, the
    ones the page has, read the error marker; nothing else changes. *)
Theorem calendar_failure_shows_error (result : FetchOf Sefaria.Calendars) (w : World) :
  calendarFailed result = true ->
  let w' := exec (fetchJewishCalendarData_resume result) w in
  outcome (fetchJewishCalendarData_resume result) w = Normal tt /\
  document w' !! "dailyDaf" = withText SHORT_ERROR <$> document w !! "dailyDaf" /\
  document w' !! "parashaName" = withText SHORT_ERROR <$> document w !! "parashaName" /\
  (forall k, k <> "dailyDaf" -> k <> "parashaName" ->
             document w' !! k = document w !! k) /\
  timers w' = timers w /\ nextTimer w' = nextTimer w /\
  mode w' = mode w /\ inflight w' = inflight w.
Proof.
  intros Hfail. unfold exec, outcome, fetchJewishCalendarData_resume, try_catch.
  destruct (calendar_try_failed result w Hfail) as [message ->].
  rewrite calendar_handler_run. cbn [fst snd].
  split; [reflexivity|].
  unfold write. cbn [document set_document set_console].
  split; [rewrite lookup_alter_ne by discriminate; apply lookup_alter_eq|].
  split; [rewrite lookup_alter_eq, lookup_alter_ne by discriminate; reflexivity|].
  split; [|repeat split].
  intros k H1 H2. rewrite !lookup_alter_ne by congruence. reflexivity.
Qed.

Lemma calendar_try_items (status : Z) (items : list (option Sefaria.CalendarItem))
    (data : Sefaria.Calendars) (w : World) :
  response_ok status = true ->
  Sefaria.calendar_items data = Some items ->
  fetchJewishCalendarData_try (Responded status (BodyValue (Some data))) w =
  (let* dafYomi := complete (findByTitle DAF_TITLE items) in
   updateText "dailyDaf" (displayOr DAF_NOT_FOUND dafYomi) ;;
   let* parashaItem := complete (findByTitle PARASHA_TITLE items) in
   updateText "parashaName" (displayOr PARASHA_NOT_FOUND parashaItem)) w.
Proof.
  intros Hok Hitems. unfold fetchJewishCalendarData_try. rewrite Hok.
  cbn [negb mbind option_bind]. rewrite Hitems. reflexivity.
Qed.

Lemma calendar_resume_no_null (status : Z) (l : list Sefaria.CalendarItem)
    (data : Sefaria.Calendars) (w : World) :
  response_ok status = true ->
  Sefaria.calendar_items data = Some (map Some l) ->
  exists c,
    fetchJewishCalendarData_resume (Responded status (BodyValue (Some data))) w =
    (Normal tt,
     set_console c
       (write "parashaName"
          (displayOr PARASHA_NOT_FOUND (List.find (hasTitle PARASHA_TITLE) l))
          (write "dailyDaf"
             (displayOr DAF_NOT_FOUND (List.find (hasTitle DAF_TITLE) l)) w))).
Proof.
  intros Hok Hitems. unfold fetchJewishCalendarData_resume, try_catch.
  rewrite (calendar_try_items status (map Some l) data w Hok Hitems).
  unfold bind at 1, complete at 1. rewrite findByTitle_no_null.
  rewrite bind_updateText.
  unfold bind at 1, complete at 1. rewrite findByTitle_no_null.
  rewrite updateText_exact. tidy_console. eexists. reflexivity.
Qed.

Lemma calendar_resume_null (status : Z) (pre : list Sefaria.CalendarItem)
    (post : list (option Sefaria.CalendarItem)) (data : Sefaria.Calendars) (w : World) :
  response_ok status = true ->
  Sefaria.calendar_items data = Some (map Some pre ++ None :: post)%list ->
  List.find (hasTitle PARASHA_TITLE) pre = None ->
  exists c d,
    fetchJewishCalendarData_resume (Responded status (BodyValue (Some data))) w =
    (Normal tt, set_console c (set_document d w)) /\
    d !! "dailyDaf" = withText SHORT_ERROR <$> document w !! "dailyDaf" /\
    d !! "parashaName" = withText SHORT_ERROR <$> document w !! "parashaName".
Proof.
  intros Hok Hitems Hnone.
  unfold fetchJewishCalendarData_resume, try_catch.
  rewrite (calendar_try_items status _ data w Hok Hitems).
  unfold bind at 1, complete at 1. rewrite findByTitle_null.
  destruct (List.find (hasTitle DAF_TITLE) pre) as [item|].
  - rewrite bind_updateText.
    unfold bind at 1, complete at 1. rewrite findByTitle_null, Hnone.
    rewrite calendar_handler_run. tidy_console.
    eexists. eexists. split; [reflexivity|].
    unfold write. cbn [document set_document set_console].
    split.
    + rewrite lookup_alter_ne by discriminate. rewrite !lookup_alter_eq.
      destruct (document w !! "dailyDaf"); reflexivity.
    + rewrite lookup_alter_eq, !lookup_alter_ne by discriminate. reflexivity.
  - rewrite calendar_handler_run.
    eexists. eexists. split; [reflexivity|].
    unfold write. cbn [document set_document set_console].
    split.
    + rewrite lookup_alter_ne by discriminate. apply lookup_alter_eq.
    + rewrite lookup_alter_eq, lookup_alter_ne by discriminate. reflexivity.
Qed.

(** X12: on an answer whose [calendar_items] holds no [null], each field
    gets the display value of the first item with its title, and the
    not-found text when no item has the title or when that first item has
    no display value or an empty one, even if a later item with the same
    title has one; nothing is thrown and no other element changes. *)
Theorem calendar_first_match_wins (status : Z) (l : list Sefaria.CalendarItem)
    (data : Sefaria.Calendars) (w : World) :
  response_ok status = true ->
  Sefaria.calendar_items data = Some (map Some l) ->
  let w' := exec (fetchJewishCalendarData_resume
                    (Responded status (BodyValue (Some data)))) w in
  outcome (fetchJewishCalendarData_resume
             (Responded status (BodyValue (Some data)))) w = Normal tt /\
  document w' !! "dailyDaf"
    = withText (displayOr DAF_NOT_FOUND (List.find (hasTitle DAF_TITLE) l))
        <$> document w !! "dailyDaf" /\
  document w' !! "parashaName"
    = withText (displayOr PARASHA_NOT_FOUND (List.find (hasTitle PARASHA_TITLE) l))
        <$> document w !! "parashaName" /\
  (forall k, k <> "dailyDaf" -> k <> "parashaName" ->
             document w' !! k = document w !! k) /\
  (forall fallback, displayOr fallback None = fallback) /\
  (forall fallback title, displayOr fallback (Some (Sefaria.mkItem title None)) = fallback) /\
  (forall fallback title,
     displayOr fallback (Some (Sefaria.mkItem title (Some ""))) = fallback).
Proof.
  intros Hok Hitems. unfold exec, outcome.
  destruct (calendar_resume_no_null status l data w Hok Hitems) as [c ->].
  cbn [fst snd].
  split; [reflexivity|].
  unfold write. cbn [document set_document set_console].
  split; [rewrite lookup_alter_ne by discriminate; apply lookup_alter_eq|].
  split; [rewrite lookup_alter_eq, lookup_alter_ne by discriminate; reflexivity|].
  split; [|repeat split].
  intros k H1 H2. rewrite !lookup_alter_ne by congruence. reflexivity.
Qed.

(** X13: a [null] element of [calendar_items] that comes before any item
    titled as the weekly portion makes [find] throw; both fields then read
    the error marker, the daily page included even when its item was found
    and written just before. *)
Theorem calendar_null_item_blanks_both (status : Z) (pre : list Sefaria.CalendarItem)
    (post : list (option Sefaria.CalendarItem)) (data : Sefaria.Calendars) (w : World) :
  response_ok status = true ->
  Sefaria.calendar_items data = Some (map Some pre ++ None :: post)%list ->
  List.find (hasTitle PARASHA_TITLE) pre = None ->
  let w' := exec (fetchJewishCalendarData_resume
                    (Responded status (BodyValue (Some data)))) w in
  outcome (fetchJewishCalendarData_resume
             (Responded status (BodyValue (Some data)))) w = Normal tt /\
  document w' !! "dailyDaf" = withText SHORT_ERROR <$> document w !! "dailyDaf" /\
  document w' !! "parashaName" = withText SHORT_ERROR <$> document w !! "parashaName".
Proof.
  intros Hok Hitems Hnone. unfold exec, outcome.
  destruct (calendar_resume_null status pre post data w Hok Hitems Hnone)
    as (c & d & -> & Hdaf & Hpar).
  cbn [fst snd]. split; [reflexivity|]. split; assumption.
Qed.

Lemma fetchHebrewDate_resume_run (result : FetchOf Hebcal.Conversion) (w : World) :
  exists c,
    fetchHebrewDate_resume result w =
    (Normal tt, set_console c (write "dateHeb" (hebrewDateText result) w)).
Proof.
  unfold fetchHebrewDate_resume, fetchHebrewDate_try, hebrewDateText, try_catch,
    console_error, throw.
  destruct result as [message|status body].
  - rewrite bind_modify, updateText_exact. tidy_console. eexists. reflexivity.
  - destruct (response_ok status); cbn [negb].
    + destruct body as [message|data].
      * rewrite bind_modify, updateText_exact. tidy_console. eexists. reflexivity.
      * destruct (data ≫= Hebcal.hebrew) as [[|ch rest]|]; cbn [truthy textOf];
          rewrite updateText_exact; eexists; reflexivity.
    + rewrite bind_modify, updateText_exact. tidy_console. eexists. reflexivity.
Qed.

(** X14: however the converter's request settles, the resumed
    [fetchHebrewDate] completes normally and writes one text to the Hebrew
    date field and to nothing else: the [hebrew] text of the answer when it
    is there and not empty, the not-available text when the body is [null]
    or [hebrew] is missing or empty, and the error marker when the request
    is rejected, the status is outside 2xx or the body is not JSON. *)
Theorem hebrew_date_field_text (result : FetchOf Hebcal.Conversion) (w : World) :
  let w' := exec (fetchHebrewDate_resume result) w in
  outcome (fetchHebrewDate_resume result) w = Normal tt /\
  document w' !! "dateHeb" = withText (hebrewDateText result) <$> document w !! "dateHeb" /\
  (forall k, k <> "dateHeb" -> document w' !! k = document w !! k) /\
  timers w' = timers w /\ mode w' = mode w /\ inflight w' = inflight w /\
  (forall status, response_ok status = true ->
     hebrewDateText (Responded status (BodyValue None)) = DATE_UNAVAILABLE /\
     hebrewDateText (Responded status (BodyValue (Some (Hebcal.mkConversion None))))
       = DATE_UNAVAILABLE /\
     hebrewDateText (Responded status (BodyValue (Some (Hebcal.mkConversion (Some "")))))
       = DATE_UNAVAILABLE) /\
  (forall status body, response_ok status = false ->
     hebrewDateText (Responded status body) = SHORT_ERROR).
Proof.
  unfold exec, outcome.
  destruct (fetchHebrewDate_resume_run result w) as [c ->]. cbn [fst snd].
  split; [reflexivity|].
  unfold write. cbn [document set_document set_console].
  split; [apply lookup_alter_eq|].
  split; [intros k Hk; apply lookup_alter_ne; congruence|].
  repeat (split; [reflexivity|]).
  split.
  - intros status Hok. unfold hebrewDateText. rewrite Hok. repeat split.
  - intros status body Hbad. unfold hebrewDateText. rewrite Hbad. reflexivity.
Qed.

(** *** The wall clock *)

Lemma updateClock_without_time (now : LocalTime) (w : World) :
  absent w "current-time" = true ->
  updateClock now w =
  (Normal tt,
   set_console
     (console w ++ ["Erreur lors de la mise à jour de l'horloge numérique:"])%list w).
Proof.
  unfold absent. intros Habsent.
  unfold updateClock, try_catch, bind at 1, bind at 1, getElement at 1.
  destruct (document w !! "current-time"); [discriminate|]. reflexivity.
Qed.

Lemma setTextContent_run (el text : string) (w : World) :
  setTextContent el text w = (Normal tt, write el text w).
Proof. reflexivity. Qed.

(** X15: on a page without the clock's time element, [updateClock]
    throws nothing, logs one line and changes no element: the date field is
    not refreshed either, because the throw of [getElement] skips it. *)
Theorem updateClock_without_time_element (now : LocalTime) (w : World) :
  absent w "current-time" = true ->
  let w' := exec (updateClock now) w in
  outcome (updateClock now) w = Normal tt /\
  document w' = document w /\
  console w' =
    (console w ++ ["Erreur lors de la mise à jour de l'horloge numérique:"])%list /\
  timers w' = timers w /\ mode w' = mode w /\ inflight w' = inflight w.
Proof.
  intros Habsent. unfold exec, outcome.
  rewrite (updateClock_without_time now w Habsent). cbn [fst snd].
  repeat split.
Qed.

(** X16: on a page with the time element, at a wall-clock time in range,
    [updateClock] makes the time field read [HH:mm:ss] with two digits each
    (so it reads as [dd:dd:dd]); the date field, if the page has it, gets
    day name, two-digit day, month name and year, and if the page lacks it
    one line is logged and the time is refreshed all the same. The
    countdown fields and the timers are left alone. *)
Theorem updateClock_shows_time_and_date (now : LocalTime) (w : World) (e : Element) :
  document w !! "current-time" = Some e ->
  0 <= lt_hour now < 24 -> 0 <= lt_minute now < 60 -> 0 <= lt_second now < 60 ->
  let w' := exec (updateClock now) w in
  outcome (updateClock now) w = Normal tt /\
  document w' !! "current-time"
    = Some (mkElement (twoDigits (lt_hour now) ++ ":" ++ twoDigits (lt_minute now)
                         ++ ":" ++ twoDigits (lt_second now)) (color e)) /\
  isCountdownText (twoDigits (lt_hour now) ++ ":" ++ twoDigits (lt_minute now)
                     ++ ":" ++ twoDigits (lt_second now)) = true /\
  document w' !! "current-date"
    = withText (at_index daysFr (lt_day now) ++ ", "
                  ++ Js.padStart 2 "0" (Js.toString (lt_date now)) ++ " "
                  ++ at_index monthsFr (lt_month now) ++ " "
                  ++ Js.padStart 4 "0" (Js.toString (lt_year now)))
        <$> document w !! "current-date" /\
  (forall k, k <> "current-time" -> k <> "current-date" ->
             document w' !! k = document w !! k) /\
  (absent w "current-date" = true ->
     console w' = (console w ++ [updateFailure "current-date"])%list) /\
  timers w' = timers w /\ mode w' = mode w /\ inflight w' = inflight w.
Proof.
  intros He Hh Hm Hs. unfold exec, outcome.
  assert (Hrun : updateClock now w =
            (Normal tt,
             set_console
               (console w ++ if absent w "current-date"
                             then [updateFailure "current-date"] else [])%list
               (write "current-date"
                  (at_index daysFr (lt_day now) ++ ", "
                     ++ Js.padStart 2 "0" (Js.toString (lt_date now)) ++ " "
                     ++ at_index monthsFr (lt_month now) ++ " "
                     ++ Js.padStart 4 "0" (Js.toString (lt_year now)))
                  (write "current-time"
                     (twoDigits (lt_hour now) ++ ":" ++ twoDigits (lt_minute now)
                        ++ ":" ++ twoDigits (lt_second now)) w)))).
  { unfold updateClock, try_catch, bind at 1, bind at 1, getElement at 1.
    rewrite He, setTextContent_run, updateText_exact, absent_write.
    rewrite !padStart_twoDigits by lia. reflexivity. }
  rewrite Hrun. cbn [fst snd].
  split; [reflexivity|].
  unfold write. cbn [document set_document set_console console].
  split.
  { rewrite lookup_alter_ne by discriminate. rewrite lookup_alter_eq, He. reflexivity. }
  split.
  { destruct (twoDigits_digits (lt_hour now)) as (h1 & h2 & -> & Hh1 & Hh2); [lia|].
    destruct (twoDigits_digits (lt_minute now)) as (m1 & m2 & -> & Hm1 & Hm2); [lia|].
    destruct (twoDigits_digits (lt_second now)) as (s1 & s2 & -> & Hs1 & Hs2); [lia|].
    change (isDigit h1 && isDigit h2 && isColon ":" && isDigit m1 && isDigit m2
            && isColon ":" && isDigit s1 && isDigit s2 = true).
    rewrite Hh1, Hh2, Hm1, Hm2, Hs1, Hs2. reflexivity. }
  split.
  { rewrite lookup_alter_eq, lookup_alter_ne by discriminate. reflexivity. }
  split.
  { intros k H1 H2. rewrite !lookup_alter_ne by congruence. reflexivity. }
  split.
  { intros Habsent. rewrite Habsent. reflexivity. }
  repeat split.
Qed.

End Further.

(** ** The further properties on the sample page *)

Local Abbreviation loadedNoSunset :=
  (exec (fetchZmanim sampleFormatDate false 0) (initial samplePageNoSunset 1)).
Local Abbreviation calendarWorld := (initial sampleCalendarPage 1).

Lemma startCountdown_without_element_witness :
  (field loadedNoSunset netz = None \/ field loadedNoSunset (otherTarget netz) = None) /\
  outcome (startCountdown (Some (Dayjs.Instant 21660000)) netz 21000001) loadedNoSunset
    = Throw (notFound "countdown-sunset") /\
  document (exec (startCountdown (Some (Dayjs.Instant 21660000)) netz 21000001)
              loadedNoSunset) = document loadedNoSunset.
Proof.
  assert (Hmiss : field loadedNoSunset netz = None
                  \/ field loadedNoSunset (otherTarget netz) = None)
    by (right; vm_compute; reflexivity).
  split; [exact Hmiss|].
  destruct (startCountdown_without_element (Dayjs.Instant 21660000) netz 21000001
              loadedNoSunset Hmiss) as (Hout & Hdoc & _).
  split; [exact Hout | exact Hdoc].
Defined.

Lemma refresh_without_countdown_element_witness :
  response_ok 200 = true /\
  incomplete sampleData = false /\
  (0 < 21660000 - 21000000 \/ 0 < 60720000 - 21000000) /\
  (field loadedNoSunset netz = None \/ field loadedNoSunset sunset = None) /\
  let w' := exec (sampleResume sampleRequest (FetchResponse 200 (JsonValue sampleData))
                    21000000 21000001) loadedNoSunset in
  document w' !! "sunrise-time" = Some (mkElement SHORT_ERROR "") /\
  netzTime w' = Some (Dayjs.Instant 21660000) /\
  timers w' = timers loadedNoSunset /\
  mode w' = netz.
Proof.
  assert (Hmiss : field loadedNoSunset netz = None \/ field loadedNoSunset sunset = None)
    by (right; vm_compute; reflexivity).
  assert (Hahead : 0 < 21660000 - 21000000 \/ 0 < 60720000 - 21000000)
    by (left; lia).
  split; [reflexivity|]. split; [reflexivity|]. split; [exact Hahead|].
  split; [exact Hmiss|]. intros w'.
  destruct (refresh_without_countdown_element sampleFormatDate sampleParse sampleOffset
              sampleRequest 200 sampleData 21000000 21000001 loadedNoSunset
              21660000 60720000 eq_refl eq_refl eq_refl eq_refl Hahead Hmiss)
    as (Hin & _ & Htimers & _ & _ & Hnetz & _ & _ & Hmode).
  subst w'.
  split; [rewrite (Hin "sunrise-time") by (cbn; tauto); vm_compute; reflexivity|].
  split; [exact Hnetz|]. split; [exact Htimers | exact Hmode].
Defined.

Lemma unreadable_times_refetch_tomorrow_witness :
  response_ok 200 = true /\
  incomplete sampleData = false /\
  let w' := exec (fetchZmanim_resume sampleFormatDate sampleParseNothing sampleOffset
                    sampleRequest (FetchResponse 200 (JsonValue sampleData))
                    21000000 21000001) loaded in
  inflight w' = (inflight loaded ++ [requestFor sampleFormatDate true 21000001])%list /\
  timers w' = timers loaded /\
  document w' !! "sunrise-time" = Some (mkElement "Invalid Date" "").
Proof.
  split; [reflexivity|]. split; [reflexivity|]. intros w'.
  destruct (unreadable_times_refetch_tomorrow sampleFormatDate sampleParseNothing
              sampleOffset sampleRequest 200 sampleData 21000000 21000001 loaded
              eq_refl eq_refl eq_refl eq_refl)
    as (Hinflight & Htimers & _ & _ & _ & _ & _ & _ & Htext & _).
  subst w'.
  split; [exact Hinflight|]. split; [exact Htimers|].
  rewrite (Htext "sunrise-time") by (cbn; tauto). vm_compute. reflexivity.
Defined.

Lemma refresh_shows_stored_times_witness :
  response_ok 200 = true /\
  incomplete sampleData = false /\
  is_Some (field loaded netz) /\
  is_Some (field loaded sunset) /\
  let w' := exec (sampleResume sampleRequest (FetchResponse 200 (JsonValue sampleData))
                    21000000 21000001) loaded in
  document w' !! "alot-hashahar-time" = Some (mkElement "4:49" "") /\
  document w' !! "sunrise-time" = Some (mkElement "6:01" "") /\
  document w' !! "sunset-time" = Some (mkElement "16:52" "").
Proof.
  assert (Hnetz : is_Some (field loaded netz)) by (eexists; vm_compute; reflexivity).
  assert (Hsunset : is_Some (field loaded sunset)) by (eexists; vm_compute; reflexivity).
  split; [reflexivity|]. split; [reflexivity|].
  split; [exact Hnetz|]. split; [exact Hsunset|]. intros w'.
  destruct (refresh_shows_stored_times sampleFormatDate sampleParse sampleOffset
              sampleRequest 200 sampleData 21000000 21000001 loaded 21660000 60720000
              eq_refl eq_refl eq_refl eq_refl Hnetz Hsunset)
    as (Ha & Hn & Hs).
  subst w'. rewrite Ha, Hn, Hs.
  split; [vm_compute; reflexivity|]. split; vm_compute; reflexivity.
Defined.

Lemma controller_writes_only_dependent_fields_witness :
  sampleReachable beforeSunrise /\
  document beforeSunrise !! "current-date" = samplePage !! "current-date" /\
  color <$> document beforeSunrise !! "sunrise-time" = color <$> samplePage !! "sunrise-time".
Proof.
  assert (Hreach : sampleReachable beforeSunrise)
    by (apply reach_step, reach_loaded; reflexivity).
  split; [exact Hreach|].
  destruct (controller_writes_only_dependent_fields sampleFormatDate sampleParse
              sampleOffset samplePage 1 beforeSunrise Hreach) as (Hout & _ & Hcolor).
  split.
  - apply Hout. cbn. intros [H|[H|[H|[H|[H|[]]]]]]; discriminate H.
  - apply Hcolor. cbn. tauto.
Defined.

Lemma calendar_failure_shows_error_witness :
  calendarFailed (Responded 503 (BodyValue None)) = true /\
  let w' := exec (fetchJewishCalendarData_resume (Responded 503 (BodyValue None)))
              calendarWorld in
  document w' !! "dailyDaf" = Some (mkElement SHORT_ERROR "") /\
  document w' !! "parashaName" = Some (mkElement SHORT_ERROR "") /\
  document w' !! "current-time" = document calendarWorld !! "current-time".
Proof.
  split; [reflexivity|]. intros w'.
  destruct (calendar_failure_shows_error (Responded 503 (BodyValue None)) calendarWorld
              eq_refl) as (_ & Hdaf & Hpar & Hother & _).
  subst w'. rewrite Hdaf, Hpar.
  split; [vm_compute; reflexivity|]. split; [vm_compute; reflexivity|].
  apply Hother; discriminate.
Defined.

Lemma calendar_first_match_wins_witness :
  response_ok 200 = true /\
  Sefaria.calendar_items (Sefaria.mkCalendars (Some (map Some sampleItems)))
    = Some (map Some sampleItems) /\
  let w' := exec (fetchJewishCalendarData_resume
                    (Responded 200 (BodyValue (Some (Sefaria.mkCalendars
                       (Some (map Some sampleItems))))))) calendarWorld in
  document w' !! "dailyDaf" = Some (mkElement DAF_NOT_FOUND "") /\
  document w' !! "parashaName" = Some (mkElement "וירא" "").
Proof.
  split; [reflexivity|]. split; [reflexivity|]. intros w'.
  destruct (calendar_first_match_wins 200 sampleItems
              (Sefaria.mkCalendars (Some (map Some sampleItems))) calendarWorld
              eq_refl eq_refl) as (_ & Hdaf & Hpar & _).
  subst w'. rewrite Hdaf, Hpar.
  split; vm_compute; reflexivity.
Defined.

Lemma calendar_null_item_blanks_both_witness :
  response_ok 200 = true /\
  List.find (hasTitle PARASHA_TITLE) (firstn 3 sampleItems) = None /\
  let data := Sefaria.mkCalendars
                (Some (map Some (firstn 3 sampleItems) ++ None :: map Some (skipn 3 sampleItems))%list) in
  let w' := exec (fetchJewishCalendarData_resume (Responded 200 (BodyValue (Some data))))
              calendarWorld in
  document w' !! "dailyDaf" = Some (mkElement SHORT_ERROR "") /\
  document w' !! "parashaName" = Some (mkElement SHORT_ERROR "").
Proof.
  split; [reflexivity|]. split; [reflexivity|]. intros data w'.
  destruct (calendar_null_item_blanks_both 200 (firstn 3 sampleItems)
              (map Some (skipn 3 sampleItems)) data calendarWorld
              eq_refl eq_refl eq_refl) as (_ & Hdaf & Hpar).
  subst w'. rewrite Hdaf, Hpar.
  split; vm_compute; reflexivity.
Defined.

Lemma updateClock_without_time_element_witness :
  absent (initial samplePage 1) "current-time" = true /\
  document (exec (updateClock sampleLocalTime) (initial samplePage 1))
    = document (initial samplePage 1).
Proof.
  split; [reflexivity|].
  exact (proj1 (proj2 (updateClock_without_time_element sampleLocalTime
                         (initial samplePage 1) eq_refl))).
Defined.

Lemma updateClock_shows_time_and_date_witness :
  document calendarWorld !! "current-time" = Some (mkElement "" "black") /\
  0 <= lt_hour sampleLocalTime < 24 /\
  0 <= lt_minute sampleLocalTime < 60 /\
  0 <= lt_second sampleLocalTime < 60 /\
  let w' := exec (updateClock sampleLocalTime) calendarWorld in
  document w' !! "current-time" = Some (mkElement "07:05:09" "black") /\
  document w' !! "current-date" = Some (mkElement "mardi, 03 novembre 2026" "").
Proof.
  assert (He : document calendarWorld !! "current-time" = Some (mkElement "" "black"))
    by (vm_compute; reflexivity).
  split; [exact He|].
  split; [cbn; lia|]. split; [cbn; lia|]. split; [cbn; lia|]. intros w'.
  destruct (updateClock_shows_time_and_date sampleLocalTime calendarWorld
              (mkElement "" "black") He ltac:(cbn; lia) ltac:(cbn; lia) ltac:(cbn; lia))
    as (_ & Htime & _ & Hdate & _).
  subst w'. rewrite Htime, Hdate.
  split; vm_compute; reflexivity.
Defined.

(** ** Two mode flips pending at once

    The answer of the first request arrives just before sunrise and the
    first tick of [startCountdown] reads the clock just after it: that tick
    schedules a mode flip (timer 1), the interval is armed all the same
    (timer 2) and its first firing schedules a second flip (timer 3). Each
    flip sends its own request when it fires, so a run that started with
    one pending request holds two. *)
Remark two_mode_flips_send_two_requests :
  let run := [FetchSettles 0 (FetchResponse 200 (JsonValue sampleData))
                21659999 21660000;
              TimerFires 2 21661000;
              TimerFires 1 21665000;
              TimerFires 3 21666000] in
  let w' := foldl (fun w e => sampleStep e w) loaded run in
  sampleReachable w' /\
  length (inflight loaded) = 1%nat /\
  length (inflight w') = 2%nat /\
  timers w' = ∅.
Proof.
  intros run w'. split.
  - do 4 apply reach_step. apply loaded_reachable.
  - vm_compute. repeat split; reflexivity.
Qed.
